(** * Pricing and discount engine (algorthims.py): model and properties

    A shallow embedding of the pricing engine of [algorthims.py].

    Modelling conventions.
    - A Python [float] is an exact rational [Q]; [float('inf')], which the
      source uses for the default [max_discount] and for the open end of the
      last shipping bracket, is the extra point [Infinity] of [Qext].
      Equalities between computed amounts are therefore stated with [==].
      The loyalty points are the exception: they are an integer cut out of a
      product of doubles, where one rounding can move the result by a whole
      point.  [Binary64.loyalty_point_calculation] therefore computes on
      IEEE 754 binary64 numbers, with the operations of [SpecFloat].
    - A Python [int] is a [Z]; [//] is floor division and raises
      [ZeroDivisionError] on a zero divisor; [int(x)] truncates toward zero.
    - A [datetime] is a [Z] (an instant on the time line).  [datetime.now()]
      is an effect: every call reads the clock once more.  A [Clock] gives
      the value of the n-th reading, and the number of readings made so far
      is threaded through every computation.
    - Exceptions and the clock live in one small monad [M]. *)

From Stdlib Require Import QArith Qround Lqa ZArith String DecimalString.
From Stdlib Require DecimalPos DecimalZ.
From Stdlib Require Import SpecFloat.
From stdpp Require Import gmap strings list fin_maps sorting.

Local Open Scope Q_scope.

(** ** Numbers *)

(** A float that may be [float('inf')]. *)
Inductive Qext := Finite (q : Q) | Infinity.

(** [x < y] on floats. *)
Definition Qltb (x y : Q) : bool := negb (Qle_bool y x).

(** [x < b] where [b] may be infinite. *)
Definition Qext_ltb (x : Q) (b : Qext) : bool :=
  match b with Finite q => Qltb x q | Infinity => true end.

(** Python's [min(a, b)]: [b] when [b < a], otherwise [a]. *)
Definition py_min (a b : Q) : Q := if Qltb b a then b else a.

Definition py_min_ext (a : Q) (b : Qext) : Q :=
  match b with Finite q => py_min a q | Infinity => a end.

(** Python's [max(a, b)]: [b] when [b > a], otherwise [a]. *)
Definition py_max (a b : Q) : Q := if Qltb a b then b else a.

(** [min] on integers. *)
Definition py_min_int (a b : Z) : Z := if (b <? a)%Z then b else a.

(** [int(x)] for a float [x]: truncation toward zero. *)
Definition py_int (x : Q) : Z := Z.quot (Qnum x) (Z.pos (Qden x)).

(** [sum(xs)]: left to right, starting from 0. *)
Definition py_sum (xs : list Q) : Q := fold_left Qplus xs 0.

(** [str(n)] for an integer. *)
Definition py_str (n : Z) : string := NilZero.string_of_int (Z.to_int n).

(** Truthiness of a list: non-empty. *)
Definition truthy {A} (l : list A) : bool :=
  match l with [] => false | _ :: _ => true end.

(** ** Effects: exceptions and the clock *)

Inductive exn := ZeroDivisionError | AttributeError.

Inductive outcome (A : Type) := Ok (a : A) | Raise (e : exn).
Arguments Ok {A} a.
Arguments Raise {A} e.

Definition datetime := Z.

(** [timedelta(days=d)] added to an instant; instants count microseconds. *)
Definition timedelta_days (d : Z) : Z := (d * 86400000000)%Z.

(** The n-th reading of [datetime.now()]. *)
Definition Clock := nat → datetime.

(** A computation reads the clock, counts its readings and may raise. *)
Definition M (A : Type) : Type := Clock → nat → outcome (A * nat).

#[global] Instance M_ret : MRet M := λ A a _ n, Ok (a, n).

#[global] Instance M_bind : MBind M := λ A B f m clock n,
  match m clock n with
  | Ok (a, n') => f a clock n'
  | Raise e => Raise e
  end.

Definition raise {A} (e : exn) : M A := λ _ _, Raise e.

Definition datetime_now : M datetime := λ clock n, Ok (clock n, S n).

(** [a // b] on integers. *)
Definition floordiv (a b : Z) : M Z :=
  if (b =? 0)%Z then raise ZeroDivisionError else mret (a / b)%Z.

(** ** Enums and data classes *)

Inductive DiscountType := PERCENTAGE | FIXED_AMOUNT | BUY_X_GET_Y | TIERED | BUNDLE.

Inductive CustomerTier := BRONZE | SILVER | GOLD | PLATINUM | VIP.

#[global] Instance DiscountType_eq_dec : EqDecision DiscountType.
Proof. solve_decision. Defined.

#[global] Instance CustomerTier_eq_dec : EqDecision CustomerTier.
Proof. solve_decision. Defined.

Module Product.
Record t := mk {
  id : Z;
  name : string;
  price : Q;
  category : string;
  stock : Z;
  cost_price : Q;
  weight : Q
}.
End Product.

Module CartItem.
Record t := mk {
  product : Product.t;
  quantity : Z
}.

Definition subtotal (self : t) : Q :=
  Product.price (product self) * inject_Z (quantity self).
End CartItem.

Module DiscountRule.
Record t := mk {
  name : string;
  discount_type : DiscountType;
  value : Q;
  min_quantity : Z;
  min_amount : Q;
  max_discount : Qext;
  applicable_categories : list string;
  applicable_products : list Z;
  customer_tiers : list CustomerTier;
  start_date : option datetime;
  end_date : option datetime;
  buy_quantity : Z;
  get_quantity : Z;
  tier_thresholds : list (Q * Q)
}.

(** The rule a call with only the three required arguments builds. *)
Definition default (name : string) (discount_type : DiscountType) (value : Q) : t :=
  mk name discount_type value 0 0 Infinity [] [] [] None None 0 0 [].

Definition is_active (self : t) : M bool :=
  now ← datetime_now;
  if match start_date self with Some s => (now <? s)%Z | None => false end
  then mret false
  else if match end_date self with Some e => (e <? now)%Z | None => false end
  then mret false
  else mret true.
End DiscountRule.

Module Customer.
Record t := mk {
  id : string;
  name : string;
  tier : CustomerTier;
  total_spent : Q;
  total_orders : Z;
  join_date : datetime
}.

Definition get_tier_discount (self : t) : Q :=
  match tier self with
  | BRONZE => 0
  | SILVER => 5
  | GOLD => 10
  | PLATINUM => 15
  | VIP => 20
  end.
End Customer.

(** ** Sorting the items of a threshold dict *)

(** [a < b] on tuples of two floats: the first differing component decides. *)
Definition tuple_ltb (a b : Q * Q) : bool :=
  if Qeq_bool a.1 b.1
  then (if Qeq_bool a.2 b.2 then false else Qltb a.2 b.2)
  else Qltb a.1 b.1.

(** [a] may stay before [b]: [b] is not smaller. *)
Definition tuple_le (a b : Q * Q) : Prop := tuple_ltb b a = false.

#[global] Instance tuple_le_dec : RelDecision tuple_le.
Proof. intros a b. unfold tuple_le. solve_decision. Defined.

(** [sorted(d.items())]: a stable merge sort with the tuple order. *)
Definition sorted (items : list (Q * Q)) : list (Q * Q) :=
  merge_sort tuple_le items.

(** ** The pricing engine *)

Module ItemDiscount.
Record t := mk {
  product_name : string;
  discount_amount : Q;
  rule_name : string;
  original_price : Q
}.
End ItemDiscount.

Module DiscountInfo.
Record t := mk {
  item_discounts : gmap string ItemDiscount.t;
  total_discount : Q;
  applied_rules : list string;
  subtotal : Q
}.
End DiscountInfo.

Module PriceBreakdown.
Record t := mk {
  subtotal : Q;
  product_discount : Q;
  customer_tier_discount : Q;
  total_discount : Q;
  tax_amount : Q;
  shipping_fee : Q;
  total : Q;
  total_weight : Q;
  discount_details : DiscountInfo.t;
  savings_percentage : Q
}.
End PriceBreakdown.

Module PricingEngine.
Record t := mk {
  discount_rules : list DiscountRule.t;
  tax_rate : Q;
  shipping_rates : list ((Q * Qext) * Q)
}.

Definition __init__ : t :=
  mk [] (1 # 10)
     [ ((0, Finite 200000), 50000);
       ((200000, Finite 500000), 30000);
       ((500000, Infinity), 0) ].

(** Appends the rule (the message printed by the source is not modelled). *)
Definition add_discount_rule (self : t) (rule : DiscountRule.t) : t :=
  mk (discount_rules self ++ [rule]) (tax_rate self) (shipping_rates self).

Definition _is_rule_applicable (self : t) (cart_item : CartItem.t)
    (rule : DiscountRule.t) (customer : Customer.t) : bool :=
  if (CartItem.quantity cart_item <? DiscountRule.min_quantity rule)%Z then false
  else if Qltb (CartItem.subtotal cart_item) (DiscountRule.min_amount rule) then false
  else if truthy (DiscountRule.applicable_categories rule)
          && negb (bool_decide (Product.category (CartItem.product cart_item)
                                  ∈ DiscountRule.applicable_categories rule))
  then false
  else if truthy (DiscountRule.applicable_products rule)
          && negb (bool_decide (Product.id (CartItem.product cart_item)
                                  ∈ DiscountRule.applicable_products rule))
  then false
  else if truthy (DiscountRule.customer_tiers rule)
          && negb (bool_decide (Customer.tier customer
                                  ∈ DiscountRule.customer_tiers rule))
  then false
  else true.

(** The body of the [for] loop of the tiered branch. *)
Definition tier_step (cart_item : CartItem.t) (discount : Q) (entry : Q * Q) : Q :=
  let '(threshold, discount_percent) := entry in
  if Qle_bool threshold (CartItem.subtotal cart_item)
  then CartItem.subtotal cart_item * (discount_percent / 100)
  else discount.

Definition calculate_item_discount (self : t) (cart_item : CartItem.t)
    (rule : DiscountRule.t) (customer : Customer.t) : M Q :=
  active ← DiscountRule.is_active rule;
  if negb active then mret 0
  else if negb (_is_rule_applicable self cart_item rule customer) then mret 0
  else
    discount ←
      match DiscountRule.discount_type rule with
      | PERCENTAGE =>
          mret (CartItem.subtotal cart_item * (DiscountRule.value rule / 100))
      | FIXED_AMOUNT =>
          mret (py_min (DiscountRule.value rule) (CartItem.subtotal cart_item))
      | BUY_X_GET_Y =>
          if (DiscountRule.buy_quantity rule <=? CartItem.quantity cart_item)%Z then
            groups ← floordiv (CartItem.quantity cart_item) (DiscountRule.buy_quantity rule);
            let free_items := (groups * DiscountRule.get_quantity rule)%Z in
            let free_items := py_min_int free_items (CartItem.quantity cart_item) in
            mret (inject_Z free_items * Product.price (CartItem.product cart_item))
          else mret 0
      | TIERED =>
          mret (fold_left (tier_step cart_item)
                          (sorted (DiscountRule.tier_thresholds rule)) 0)
      | BUNDLE => mret 0
      end;
    mret (py_min_ext discount (DiscountRule.max_discount rule)).

Definition item_key (item : CartItem.t) : string :=
  py_str (Product.id (CartItem.product item)) +:+ "_" +:+ py_str (CartItem.quantity item).

(** The inner loop: the best discount and its rule for one item. *)
Fixpoint best_rule_loop (self : t) (item : CartItem.t) (customer : Customer.t)
    (rules : list DiscountRule.t) (best : Q * option DiscountRule.t)
    : M (Q * option DiscountRule.t) :=
  match rules with
  | [] => mret best
  | rule :: rest =>
      discount ← calculate_item_discount self item rule customer;
      best_rule_loop self item customer rest
        (if Qltb best.1 discount then (discount, Some rule) else best)
  end.

(** What the loop body does with the best discount of one item. *)
Definition record_best (item : CartItem.t) (best : Q * option DiscountRule.t)
    (results : DiscountInfo.t) : M DiscountInfo.t :=
  let '(best_discount, best_rule) := best in
  if Qltb 0 best_discount then
    match best_rule with
    | None => raise AttributeError
    | Some rule =>
        let entry := ItemDiscount.mk (Product.name (CartItem.product item))
                       best_discount (DiscountRule.name rule) (CartItem.subtotal item) in
        mret (DiscountInfo.mk
                (<[item_key item := entry]> (DiscountInfo.item_discounts results))
                (DiscountInfo.total_discount results + best_discount)
                (if bool_decide (DiscountRule.name rule ∈ DiscountInfo.applied_rules results)
                 then DiscountInfo.applied_rules results
                 else DiscountInfo.applied_rules results ++ [DiscountRule.name rule])
                (DiscountInfo.subtotal results))
    end
  else mret results.

(** The outer loop over the cart. *)
Fixpoint item_loop (self : t) (customer : Customer.t) (items : list CartItem.t)
    (results : DiscountInfo.t) : M DiscountInfo.t :=
  match items with
  | [] => mret results
  | item :: rest =>
      best ← best_rule_loop self item customer (discount_rules self) (0, None);
      results ← record_best item best results;
      item_loop self customer rest results
  end.

Definition calculate_best_discount_combination (self : t)
    (cart_items : list CartItem.t) (customer : Customer.t) : M DiscountInfo.t :=
  let subtotal := py_sum (map CartItem.subtotal cart_items) in
  item_loop self customer cart_items (DiscountInfo.mk ∅ 0 [] subtotal).

(** The first bracket containing the subtotal gives the base fee. *)
Fixpoint bracket_loop (rates : list ((Q * Qext) * Q)) (subtotal base_fee : Q) : Q :=
  match rates with
  | [] => base_fee
  | ((min_amount, max_amount), fee) :: rest =>
      if Qle_bool min_amount subtotal && Qext_ltb subtotal max_amount
      then fee
      else bracket_loop rest subtotal base_fee
  end.

Definition calculate_shipping_fee (self : t) (subtotal weight : Q) : Q :=
  let base_fee := bracket_loop (shipping_rates self) subtotal 0 in
  if Qltb 5 weight then base_fee + (weight - 5) * 10000 else base_fee.

Definition calculate_final_price (self : t) (cart_items : list CartItem.t)
    (customer : Customer.t) (apply_customer_discount : bool) : M PriceBreakdown.t :=
  let subtotal := py_sum (map CartItem.subtotal cart_items) in
  let total_weight :=
    py_sum (map (λ item, Product.weight (CartItem.product item)
                         * inject_Z (CartItem.quantity item)) cart_items) in
  discount_info ← calculate_best_discount_combination self cart_items customer;
  let product_discount := DiscountInfo.total_discount discount_info in
  let customer_discount :=
    if apply_customer_discount
    then (subtotal - product_discount) * (Customer.get_tier_discount customer / 100)
    else 0 in
  let taxable_amount := subtotal - product_discount - customer_discount in
  let tax_amount := taxable_amount * tax_rate self in
  let shipping_fee := calculate_shipping_fee self subtotal total_weight in
  let total := subtotal - product_discount - customer_discount + tax_amount + shipping_fee in
  mret (PriceBreakdown.mk subtotal product_discount customer_discount
          (product_discount + customer_discount) tax_amount shipping_fee total
          total_weight discount_info
          (if Qltb 0 subtotal
           then (product_discount + customer_discount) / subtotal * 100
           else 0)).
End PricingEngine.

Module BundleInfo.
Record t := mk {
  products : list string;
  individual_total : Q;
  bundle_price : Q;
  savings : Q;
  discount_percentage : Q
}.
End BundleInfo.

Module AdvancedPricingAlgorithms.
(** The default of [target_margin]. *)
Definition default_target_margin : Q := 3 # 10.

Definition dynamic_pricing (base_price demand_factor competitor_price : Q)
    (inventory_level : Z) (target_margin : Q) : Q :=
  let demand_adjustment := 1 + (demand_factor - 1) * (2 # 10) in
  let competitor_adjustment :=
    if Qltb competitor_price base_price then 95 # 100 else 1 in
  let inventory_adjustment :=
    if (inventory_level <? 10)%Z then 11 # 10
    else if (100 <? inventory_level)%Z then 9 # 10
    else 1 in
  let dynamic_price :=
    base_price * demand_adjustment * competitor_adjustment * inventory_adjustment in
  let min_price := base_price * (1 + target_margin) in
  py_max dynamic_price min_price.

(** The default of [bundle_discount]. *)
Definition default_bundle_discount : Q := 15 # 100.

Definition optimal_bundle_pricing (products : list Product.t)
    (bundle_discount : Q) : BundleInfo.t :=
  let total_price := py_sum (map Product.price products) in
  let bundle_price := total_price * (1 - bundle_discount) in
  let savings := total_price - bundle_price in
  BundleInfo.mk (map Product.name products) total_price bundle_price savings
    (bundle_discount * 100).

Definition tier_multiplier (tier : CustomerTier) : Q :=
  match tier with
  | BRONZE => 1
  | SILVER => 12 # 10
  | GOLD => 15 # 10
  | PLATINUM => 2
  | VIP => 3
  end.

(** The computation in exact arithmetic; [Binary64.loyalty_point_calculation]
    is the one on doubles. *)
Definition loyalty_point_calculation (amount_spent : Q) (tier : CustomerTier)
    (bonus_multiplier : Q) : Z :=
  let base_points := py_int (amount_spent / 1000) in
  let multiplier := tier_multiplier tier * bonus_multiplier in
  py_int (inject_Z base_points * multiplier).
End AdvancedPricingAlgorithms.

(** ** Loyalty points on doubles *)

Module Binary64.
(** A double: an IEEE 754 binary64 number (53 bits of precision). *)
Definition prec : Z := 53.
Definition emax : Z := 1024.
Definition double : Type := spec_float.

(** [x * y], [x / y] and [x <= y] on doubles, rounded to nearest even. *)
Definition mul (x y : double) : double := SFmul prec emax x y.
Definition div (x y : double) : double := SFdiv prec emax x y.

(** The double nearest to [m * 2 ^ e]. *)
Definition nearest (m e : Z) : double := binary_normalize prec emax m e false.


Inductive conversion_error := ValueError | OverflowError.

(** [float(n)] for an integer, as in [n * x] with a float [x]. *)
Definition of_int (n : Z) : conversion_error + double :=
  match nearest n 0 with
  | S754_infinity _ => inl OverflowError
  | x => inr x
  end.

(** [int(x)]: truncation toward zero; no integer for NaN and infinities. *)
Definition to_int (x : double) : conversion_error + Z :=
  match x with
  | S754_zero _ => inr 0%Z
  | S754_finite s m e =>
      inr (cond_Zopp s
             match e with
             | Zneg p => (Z.pos m / Z.pos (2 ^ p))%Z
             | _ => (Z.pos m * 2 ^ e)%Z
             end)
  | S754_infinity _ => inl OverflowError
  | S754_nan => inl ValueError
  end.

(** The number a finite double stands for. *)
Definition value (x : double) : Q :=
  match x with
  | S754_finite s m e =>
      match e with
      | Zneg p => cond_Zopp s (Z.pos m) # (2 ^ p)
      | _ => inject_Z (cond_Zopp s (Z.pos m * 2 ^ e))
      end
  | _ => 0
  end.

(** The literal [1000], converted to a double by the division. *)
Definition thousand : double := Eval vm_compute in nearest 1000 0.

(** The literals [1.0], [1.2], [1.5], [2.0] and [3.0]; [1.2] is the double
    [0x1.3333333333333p+0]. *)
Definition lit_1_0 : double := Eval vm_compute in nearest 1 0.
Definition lit_1_2 : double := S754_finite false 5404319552844595 (-52).
Definition lit_1_5 : double := Eval vm_compute in nearest 3 (-1).
Definition lit_2_0 : double := Eval vm_compute in nearest 2 0.
Definition lit_3_0 : double := Eval vm_compute in nearest 3 0.

Definition tier_multipliers (tier : CustomerTier) : double :=
  match tier with
  | BRONZE => lit_1_0
  | SILVER => lit_1_2
  | GOLD => lit_1_5
  | PLATINUM => lit_2_0
  | VIP => lit_3_0
  end.

Definition loyalty_point_calculation (amount_spent : double) (tier : CustomerTier)
    (bonus_multiplier : double) : conversion_error + Z :=
  match to_int (div amount_spent thousand) with
  | inl e => inl e
  | inr base_points =>
      let multiplier := mul (tier_multipliers tier) bonus_multiplier in
      match of_int base_points with
      | inl e => inl e
      | inr base => to_int (mul base multiplier)
      end
  end.
End Binary64.

(** ** The sample rule set *)

(** The two dates of the first rule are two readings of the clock, in the
    order of the keyword arguments. *)
Definition create_discount_rules : M (list DiscountRule.t) :=
  start ← datetime_now;
  now ← datetime_now;
  mret [ DiscountRule.mk "Flash Sale Electronics 20%" PERCENTAGE 20 0 0
           (Finite 5000000) ["Electronics"%string] [] []
           (Some start) (Some (now + timedelta_days 7)%Z) 0 0 [];
         DiscountRule.mk "Buy 2 Get 1 Free Fashion" BUY_X_GET_Y 0 0 0
           Infinity ["Fashion"%string] [] [] None None 2 1 [];
         DiscountRule.mk "Tiered Discount" TIERED 0 0 0
           Infinity [] [] [] None None 0 0
           [(10000000, 5); (20000000, 10); (50000000, 15)];
         DiscountRule.mk "VIP Fixed Discount" FIXED_AMOUNT 1000000 0 5000000
           Infinity [] [] [VIP; PLATINUM] None None 0 0 [] ].

(** * Vocabulary of the statements *)

(** [x <= b] where [b] may be infinite. *)
Definition Qext_le (x : Q) (b : Qext) : Prop :=
  match b with Finite q => x <= q | Infinity => True end.

(** Whether a rule's window contains the instant [now]. *)
Definition active_at (now : datetime) (rule : DiscountRule.t) : bool :=
  negb match DiscountRule.start_date rule with
       | Some s => (now <? s)%Z | None => false end
  && negb match DiscountRule.end_date rule with
          | Some e => (e <? now)%Z | None => false end.

(** The amount computed by the branch of the rule's type, before the cap. *)
Definition uncapped (item : CartItem.t) (rule : DiscountRule.t) : Q :=
  match DiscountRule.discount_type rule with
  | PERCENTAGE => CartItem.subtotal item * (DiscountRule.value rule / 100)
  | FIXED_AMOUNT => py_min (DiscountRule.value rule) (CartItem.subtotal item)
  | BUY_X_GET_Y =>
      if (DiscountRule.buy_quantity rule <=? CartItem.quantity item)%Z
      then inject_Z (py_min_int
                       (CartItem.quantity item / DiscountRule.buy_quantity rule
                        * DiscountRule.get_quantity rule)%Z
                       (CartItem.quantity item))
           * Product.price (CartItem.product item)
      else 0
  | TIERED => fold_left (PricingEngine.tier_step item)
                        (sorted (DiscountRule.tier_thresholds rule)) 0
  | BUNDLE => 0
  end.

(** The division of the buy-X-get-Y branch is reached with a zero divisor. *)
Definition divides_by_zero (item : CartItem.t) (rule : DiscountRule.t) : bool :=
  bool_decide (DiscountRule.discount_type rule = BUY_X_GET_Y)
  && (DiscountRule.buy_quantity rule <=? CartItem.quantity item)%Z
  && (DiscountRule.buy_quantity rule =? 0)%Z.

(** The engine after [__init__] and one [add_discount_rule] per rule. *)
Definition engine (rules : list DiscountRule.t) : PricingEngine.t :=
  fold_left PricingEngine.add_discount_rule rules PricingEngine.__init__.

(** The subtotal lies in the bracket [[min_amount, max_amount)]. *)
Definition in_bracket (subtotal : Q) (bracket : (Q * Qext) * Q) : Prop :=
  bracket.1.1 <= subtotal ∧
  match bracket.1.2 with Finite q => subtotal < q | Infinity => True end.

(** The order Bronze < Silver < Gold < Platinum < VIP. *)
Definition tier_rank (tier : CustomerTier) : nat :=
  match tier with
  | BRONZE => 0 | SILVER => 1 | GOLD => 2 | PLATINUM => 3 | VIP => 4
  end.

(** The same customer with another tier. *)
Definition with_tier (customer : Customer.t) (tier : CustomerTier) : Customer.t :=
  Customer.mk (Customer.id customer) (Customer.name customer) tier
    (Customer.total_spent customer) (Customer.total_orders customer)
    (Customer.join_date customer).

(** The items of a dict have pairwise different keys. *)
Definition distinct_keys (items : list (Q * Q)) : Prop :=
  NoDup items ∧ ∀ a b, a ∈ items → b ∈ items → a.1 == b.1 → a = b.

(** An item with a non-negative price and quantity. *)
Definition well_formed_item (item : CartItem.t) : Prop :=
  0 <= Product.price (CartItem.product item) ∧ (0 ≤ CartItem.quantity item)%Z.

(** A rule whose parameters are in the range their meaning gives them: a
    non-negative cap, a percentage between 0 and 100, a non-negative fixed
    amount, at least one bought unit and no negative free unit. *)
Definition well_formed_rule (rule : DiscountRule.t) : Prop :=
  Qext_le 0 (DiscountRule.max_discount rule) ∧
  match DiscountRule.discount_type rule with
  | PERCENTAGE => 0 <= DiscountRule.value rule ∧ DiscountRule.value rule <= 100
  | FIXED_AMOUNT => 0 <= DiscountRule.value rule
  | BUY_X_GET_Y =>
      (1 ≤ DiscountRule.buy_quantity rule)%Z ∧ (0 ≤ DiscountRule.get_quantity rule)%Z
  | TIERED =>
      Forall (λ e : Q * Q, 0 <= e.2 ∧ e.2 <= 100) (DiscountRule.tier_thresholds rule)
  | BUNDLE => True
  end.

(** The floor division of a buy-X-get-Y rule has a divisor other than 0. *)
Definition safe_rule (rule : DiscountRule.t) : Prop :=
  DiscountRule.discount_type rule = BUY_X_GET_Y →
  DiscountRule.buy_quantity rule ≠ 0%Z.

(** [best_discount] and [best_rule] are the outcome of the selection for
    [item], the rules being evaluated at the readings [n], [n + 1], ... of
    the clock: no rule yields more than [best_discount]; the winner yields
    exactly [best_discount], which is positive, and every rule before it in
    the list yields strictly less; without a winner [best_discount] is 0. *)
Definition wins (self : PricingEngine.t) (customer : Customer.t) (clock : Clock)
    (rules : list DiscountRule.t) (item : CartItem.t) (n : nat)
    (best_discount : Q) (best_rule : option DiscountRule.t) : Prop :=
  (∀ j rule, rules !! j = Some rule →
     ∃ d, PricingEngine.calculate_item_discount self item rule customer clock (n + j)%nat
          = Ok (d, S (n + j)%nat) ∧ d <= best_discount) ∧
  match best_rule with
  | None => best_discount = 0
  | Some winner =>
      ∃ j, rules !! j = Some winner ∧
           PricingEngine.calculate_item_discount self item winner customer clock (n + j)%nat
           = Ok (best_discount, S (n + j)%nat) ∧
           0 < best_discount ∧
           ∀ j' rule, (j' < j)%nat → rules !! j' = Some rule →
             ∃ d, PricingEngine.calculate_item_discount self item rule customer clock (n + j')%nat
                  = Ok (d, S (n + j')%nat) ∧ d < best_discount
  end.

(** The entry of the itemized report for an item and its winning rule. *)
Definition entry_of (item : CartItem.t) (best_discount : Q)
    (winner : DiscountRule.t) : ItemDiscount.t :=
  ItemDiscount.mk (Product.name (CartItem.product item)) best_discount
    (DiscountRule.name winner) (CartItem.subtotal item).

(** The update of the report for one item: nothing without a winner. *)
Definition record_pick (results : DiscountInfo.t)
    (pick : CartItem.t * (Q * option DiscountRule.t)) : DiscountInfo.t :=
  match pick.2.2 with
  | None => results
  | Some winner =>
      DiscountInfo.mk
        (<[PricingEngine.item_key pick.1 := entry_of pick.1 pick.2.1 winner]>
           (DiscountInfo.item_discounts results))
        (DiscountInfo.total_discount results + pick.2.1)
        (if bool_decide (DiscountRule.name winner ∈ DiscountInfo.applied_rules results)
         then DiscountInfo.applied_rules results
         else DiscountInfo.applied_rules results ++ [DiscountRule.name winner])
        (DiscountInfo.subtotal results)
  end.

(** A best discount is positive exactly when it has a winner. *)
Definition consistent (pick : Q * option DiscountRule.t) : Prop :=
  match pick.2 with None => pick.1 = 0 | Some _ => 0 < pick.1 end.

(** The sum of a list of amounts. *)
Definition Qsum (xs : list Q) : Q := foldr Qplus 0 xs.

(** An item the data model excludes: a non-positive quantity, or a
    negative price, cost or weight. *)
Definition invalid_item (item : CartItem.t) : Prop :=
  (CartItem.quantity item ≤ 0)%Z ∨
  Product.price (CartItem.product item) < 0 ∨
  Product.cost_price (CartItem.product item) < 0 ∨
  Product.weight (CartItem.product item) < 0.

(** The total weight of a cart. *)
Definition cart_weight (cart : list CartItem.t) : Q :=
  py_sum (map (λ item, Product.weight (CartItem.product item)
                       * inject_Z (CartItem.quantity item)) cart).

(** The tier allow-list of a rule is upward closed: a rule that admits a
    tier admits every higher tier (an empty list admits all of them). *)
Definition upward_closed (rule : DiscountRule.t) : Prop :=
  ∀ lower higher, (tier_rank lower ≤ tier_rank higher)%nat →
    lower ∈ DiscountRule.customer_tiers rule →
    higher ∈ DiscountRule.customer_tiers rule.



(** ** Sample data *)

Definition sample_product (price : Q) : Product.t :=
  Product.mk 1 "Item" price "Electronics" 10 0 0.

Definition sample_customer (tier : CustomerTier) : Customer.t :=
  Customer.mk "CUST001" "A" tier 0 0 0%Z.

(** A clock that stands still at instant 100. *)
Definition still_clock : Clock := λ _, 100%Z.

(** A rule whose window ends (instant 10) before it starts (instant 20). *)
Definition inverted_rule : DiscountRule.t :=
  DiscountRule.mk "Inverted" PERCENTAGE 20 0 0 Infinity [] [] []
    (Some 20%Z) (Some 10%Z) 0 0 [].

(** "Buy 2 get 1 free". *)
Definition buy2_get1 : DiscountRule.t :=
  DiscountRule.mk "Buy 2 Get 1" BUY_X_GET_Y 0 0 0 Infinity [] [] []
    None None 2 1 [].

(** A buy-X-get-Y rule built without its quantities. *)
Definition buy0 : DiscountRule.t := DiscountRule.default "Buy" BUY_X_GET_Y 0.

(** A tiered rule with two thresholds: 5% from 10,000,000 and 10% from
    20,000,000. *)
Definition sample_tiered : DiscountRule.t :=
  DiscountRule.mk "Tiered Discount" TIERED 0 0 0 Infinity [] [] []
    None None 0 0 [(10000000, 5); (20000000, 10)].

(** "20% off electronics", at most 150,000. *)
Definition flash_sale : DiscountRule.t :=
  DiscountRule.mk "Flash Sale Electronics 20%" PERCENTAGE 20 0 0 (Finite 150000)
    ["Electronics"%string] [] [] None None 0 0 [].

(** A percentage rule of 150%. *)
Definition percent150 : DiscountRule.t := DiscountRule.default "150%" PERCENTAGE 150.

(** "50% off", for Bronze customers only. *)
Definition bronze_only : DiscountRule.t :=
  DiscountRule.mk "Welcome 50%" PERCENTAGE 50 0 0 Infinity [] [] [BRONZE]
    None None 0 0 [].

(** Two rules that give the same discount (10%) under different names. *)
Definition ten_percent (name : string) : DiscountRule.t :=
  DiscountRule.default name PERCENTAGE 10.

(** * Properties *)

(** ** Comparisons and minima *)

Lemma Qltb_true (x y : Q) : Qltb x y = true ↔ x < y.
Proof.
  unfold Qltb. rewrite negb_true_iff. split.
  - intros H. apply Qnot_le_lt. intros Hle.
    apply Qle_bool_iff in Hle. congruence.
  - intros H. destruct (Qle_bool y x) eqn:E; [|done].
    apply Qle_bool_iff in E. lra.
Qed.

Lemma Qltb_false (x y : Q) : Qltb x y = false ↔ y <= x.
Proof.
  unfold Qltb. rewrite negb_false_iff. apply Qle_bool_iff.
Qed.

Lemma Qle_bool_false (x y : Q) : Qle_bool x y = false ↔ y < x.
Proof.
  split.
  - intros H. apply Qnot_le_lt. intros Hle.
    apply Qle_bool_iff in Hle. congruence.
  - intros H. destruct (Qle_bool x y) eqn:E; [|done].
    apply Qle_bool_iff in E. lra.
Qed.

Lemma py_min_cases (a b : Q) :
  (b < a ∧ py_min a b = b) ∨ (a <= b ∧ py_min a b = a).
Proof.
  unfold py_min. destruct (Qltb b a) eqn:E.
  - left. by apply Qltb_true in E.
  - right. by apply Qltb_false in E.
Qed.

Lemma py_min_le_l (a b : Q) : py_min a b <= a.
Proof. destruct (py_min_cases a b) as [[? ->]|[? ->]]; lra. Qed.

Lemma py_min_le_r (a b : Q) : py_min a b <= b.
Proof. destruct (py_min_cases a b) as [[? ->]|[? ->]]; lra. Qed.

Lemma py_min_nonneg (a b : Q) : 0 <= a → 0 <= b → 0 <= py_min a b.
Proof. intros. destruct (py_min_cases a b) as [[? ->]|[? ->]]; lra. Qed.

Lemma py_min_ext_le_l (a : Q) (b : Qext) : py_min_ext a b <= a.
Proof. destruct b; simpl; [apply py_min_le_l | lra]. Qed.

Lemma py_min_ext_le_r (a : Q) (b : Qext) : Qext_le (py_min_ext a b) b.
Proof. destruct b; simpl; [apply py_min_le_r | done]. Qed.

Lemma py_min_ext_nonneg (a : Q) (b : Qext) :
  0 <= a → Qext_le 0 b → 0 <= py_min_ext a b.
Proof. destruct b; simpl; [apply py_min_nonneg | done]. Qed.

Lemma py_min_int_spec (a b : Z) : py_min_int a b = Z.min a b.
Proof. unfold py_min_int. destruct (Z.ltb_spec b a); lia. Qed.


(** ** Running the effects *)

Ltac run :=
  unfold mbind, M_bind, mret, M_ret, raise, datetime_now, floordiv in *; simpl in *.

Lemma is_active_run (rule : DiscountRule.t) (clock : Clock) (n : nat) :
  DiscountRule.is_active rule clock n = Ok (active_at (clock n) rule, S n).
Proof.
  unfold DiscountRule.is_active, active_at. run.
  destruct (DiscountRule.start_date rule) as [s|],
           (DiscountRule.end_date rule) as [e|]; simpl;
    repeat match goal with |- context [Z.ltb ?a ?b] => destruct (Z.ltb a b) end;
    reflexivity.
Qed.

(** One evaluation of a rule reads the clock exactly once. *)
Lemma calculate_item_discount_tick self item rule customer clock n d n' :
  PricingEngine.calculate_item_discount self item rule customer clock n = Ok (d, n') →
  n' = S n.
Proof.
  unfold PricingEngine.calculate_item_discount.
  unfold mbind at 1, M_bind at 1. rewrite is_active_run.
  destruct (negb _); [run; congruence|].
  destruct (negb _); [run; congruence|].
  destruct (DiscountRule.discount_type rule); run; try congruence.
  destruct (_ <=? _)%Z; run; [|congruence].
  destruct (_ =? _)%Z; run; congruence.
Qed.

(** An inactive or inapplicable rule yields exactly [0]. *)
Lemma calculate_item_discount_skip self item rule customer clock n :
  active_at (clock n) rule
    && PricingEngine._is_rule_applicable self item rule customer = false →
  PricingEngine.calculate_item_discount self item rule customer clock n = Ok (0, S n).
Proof.
  intros H. unfold PricingEngine.calculate_item_discount.
  unfold mbind at 1, M_bind at 1. rewrite is_active_run.
  destruct (active_at _ _); simpl in *; [|done].
  rewrite H. done.
Qed.

Lemma calculate_item_discount_apply self item rule customer clock n :
  active_at (clock n) rule
    && PricingEngine._is_rule_applicable self item rule customer = true →
  PricingEngine.calculate_item_discount self item rule customer clock n =
    if divides_by_zero item rule then Raise ZeroDivisionError
    else Ok (py_min_ext (uncapped item rule) (DiscountRule.max_discount rule), S n).
Proof.
  intros [Ha Hp]%andb_true_iff. unfold PricingEngine.calculate_item_discount.
  unfold mbind at 1, M_bind at 1. rewrite is_active_run, Ha, Hp. simpl.
  unfold divides_by_zero, uncapped.
  destruct (DiscountRule.discount_type rule); run; try done.
  destruct (_ <=? _)%Z; run; [|done].
  destruct (_ =? _)%Z; run; done.
Qed.

Lemma engine_app (rules : list DiscountRule.t) (self : PricingEngine.t) :
  fold_left PricingEngine.add_discount_rule rules self =
  PricingEngine.mk (PricingEngine.discount_rules self ++ rules)
    (PricingEngine.tax_rate self) (PricingEngine.shipping_rates self).
Proof.
  revert self. induction rules as [|r rules IH]; intros [rs tr sr]; simpl.
  - by rewrite app_nil_r.
  - rewrite IH. simpl. by rewrite <- app_assoc.
Qed.

Lemma engine_eq (rules : list DiscountRule.t) :
  engine rules =
  PricingEngine.mk rules (1 # 10) (PricingEngine.shipping_rates PricingEngine.__init__).
Proof. unfold engine. by rewrite engine_app. Qed.

(** ** Activity window *)

Lemma inverted_window_inactive (rule : DiscountRule.t) (now s e : datetime) :
  DiscountRule.start_date rule = Some s →
  DiscountRule.end_date rule = Some e →
  (e < s)%Z →
  active_at now rule = false.
Proof.
  intros Hs He Hlt. unfold active_at. rewrite Hs, He.
  destruct (Z.ltb_spec now s); simpl; [done|].
  destruct (Z.ltb_spec e now); simpl; [done|lia].
Qed.

(** C8 - A rule whose end date is set and lies strictly before its start
    date is inactive at every reading of the clock: [is_active] answers
    [False], and [calculate_item_discount] returns exactly 0 for it, on every
    cart item and customer. *)
Theorem inverted_window_never_matches
    (self : PricingEngine.t) (item : CartItem.t) (rule : DiscountRule.t)
    (customer : Customer.t) (clock : Clock) (n : nat) (s e : datetime) :
  DiscountRule.start_date rule = Some s →
  DiscountRule.end_date rule = Some e →
  (e < s)%Z →
  DiscountRule.is_active rule clock n = Ok (false, S n) ∧
  PricingEngine.calculate_item_discount self item rule customer clock n = Ok (0, S n).
Proof.
  intros Hs He Hlt.
  pose proof (inverted_window_inactive rule (clock n) s e Hs He Hlt) as Hin.
  split.
  - by rewrite is_active_run, Hin.
  - apply calculate_item_discount_skip. by rewrite Hin.
Qed.

Lemma inverted_window_never_matches_witness :
  DiscountRule.start_date inverted_rule = Some 20%Z ∧
  DiscountRule.end_date inverted_rule = Some 10%Z ∧
  (10 < 20)%Z ∧
  DiscountRule.is_active inverted_rule still_clock 0%nat = Ok (false, 1%nat) ∧
  PricingEngine.calculate_item_discount PricingEngine.__init__
    (CartItem.mk (sample_product 100000) 2) inverted_rule
    (sample_customer BRONZE) still_clock 0%nat = Ok (0, 1%nat).
Proof.
  split; [reflexivity|]. split; [reflexivity|]. split; [lia|].
  apply (inverted_window_never_matches PricingEngine.__init__
           (CartItem.mk (sample_product 100000) 2) inverted_rule
           (sample_customer BRONZE) still_clock 0%nat 20%Z 10%Z);
    [reflexivity | reflexivity | lia].
Defined.

(** ** Division in the buy-X-get-Y branch *)

Lemma divides_by_zero_false (item : CartItem.t) (rule : DiscountRule.t) :
  safe_rule rule → divides_by_zero item rule = false.
Proof.
  intros H. unfold divides_by_zero. case_bool_decide as Ht; simpl; [|done].
  specialize (H Ht). destruct (Z.eqb_spec (DiscountRule.buy_quantity rule) 0).
  - done.
  - by rewrite andb_false_r.
Qed.

Lemma safe_rule_positive (rule : DiscountRule.t) :
  (DiscountRule.discount_type rule = BUY_X_GET_Y →
   (1 ≤ DiscountRule.buy_quantity rule)%Z) →
  safe_rule rule.
Proof. intros H Ht. specialize (H Ht). lia. Qed.

(** C10 - [calculate_item_discount] returns an amount (it does not raise)
    for every item, customer and rule such that a rule of type BuyXGetY has
    [buy_quantity >= 1].  The precondition is needed: for an active,
    applicable BuyXGetY rule with [buy_quantity = 0] and an item of quantity
    [>= 0], the floor division raises [ZeroDivisionError] and no amount is
    returned; 0 is the value [buy_quantity] has when a rule is built without
    it. *)
Theorem calculate_item_discount_division
    (self : PricingEngine.t) (item : CartItem.t) (rule : DiscountRule.t)
    (customer : Customer.t) (clock : Clock) (n : nat) :
  ((DiscountRule.discount_type rule = BUY_X_GET_Y →
    (1 ≤ DiscountRule.buy_quantity rule)%Z) →
   ∃ d, PricingEngine.calculate_item_discount self item rule customer clock n
        = Ok (d, S n)) ∧
  (DiscountRule.discount_type rule = BUY_X_GET_Y →
   DiscountRule.buy_quantity rule = 0%Z →
   DiscountRule.is_active rule clock n = Ok (true, S n) →
   PricingEngine._is_rule_applicable self item rule customer = true →
   (0 ≤ CartItem.quantity item)%Z →
   PricingEngine.calculate_item_discount self item rule customer clock n
   = Raise ZeroDivisionError) ∧
  (∀ name discount_type value,
     DiscountRule.buy_quantity (DiscountRule.default name discount_type value)
     = 0%Z).
Proof.
  split; [|split; [|done]].
  - intros Hpre.
    destruct (active_at (clock n) rule
              && PricingEngine._is_rule_applicable self item rule customer) eqn:E.
    + rewrite (calculate_item_discount_apply _ _ _ _ _ _ E).
      rewrite (divides_by_zero_false _ _ (safe_rule_positive _ Hpre)). eauto.
    + rewrite (calculate_item_discount_skip _ _ _ _ _ _ E). eauto.
  - intros Ht Hb Ha Hp Hq. rewrite is_active_run in Ha.
    assert (active_at (clock n) rule = true) as Ha' by congruence.
    rewrite calculate_item_discount_apply by (by rewrite Ha', Hp).
    unfold divides_by_zero. rewrite Ht, Hb. simpl.
    destruct (Z.leb_spec 0 (CartItem.quantity item)); [done|lia].
Qed.

Lemma calculate_item_discount_division_witness :
  ((DiscountRule.discount_type buy2_get1 = BUY_X_GET_Y →
    (1 ≤ DiscountRule.buy_quantity buy2_get1)%Z) ∧
   ∃ d, PricingEngine.calculate_item_discount PricingEngine.__init__
          (CartItem.mk (sample_product 100000) 4) buy2_get1
          (sample_customer BRONZE) still_clock 0%nat = Ok (d, 1%nat)) ∧
  (DiscountRule.discount_type buy0 = BUY_X_GET_Y ∧
   DiscountRule.buy_quantity buy0 = 0%Z ∧
   DiscountRule.is_active buy0 still_clock 0%nat = Ok (true, 1%nat) ∧
   PricingEngine._is_rule_applicable PricingEngine.__init__
     (CartItem.mk (sample_product 100000) 4) buy0 (sample_customer BRONZE) = true ∧
   (0 ≤ CartItem.quantity (CartItem.mk (sample_product 100000) 4))%Z ∧
   PricingEngine.calculate_item_discount PricingEngine.__init__
     (CartItem.mk (sample_product 100000) 4) buy0
     (sample_customer BRONZE) still_clock 0%nat = Raise ZeroDivisionError).
Proof.
  split.
  - split; [simpl; lia|].
    apply (proj1 (calculate_item_discount_division PricingEngine.__init__
                    (CartItem.mk (sample_product 100000) 4) buy2_get1
                    (sample_customer BRONZE) still_clock 0%nat)).
    simpl; lia.
  - split; [reflexivity|]. split; [reflexivity|]. split; [reflexivity|].
    split; [reflexivity|]. split; [simpl; lia|].
    apply (proj1 (proj2 (calculate_item_discount_division PricingEngine.__init__
                           (CartItem.mk (sample_product 100000) 4) buy0
                           (sample_customer BRONZE) still_clock 0%nat)));
      [reflexivity | reflexivity | reflexivity | reflexivity | simpl; lia].
Defined.

(** ** Shipping fee *)

Lemma bracket_loop_init (subtotal : Q) :
  0 <= subtotal →
  (subtotal < 200000 →
   PricingEngine.bracket_loop
     (PricingEngine.shipping_rates PricingEngine.__init__) subtotal 0 = 50000) ∧
  (200000 <= subtotal → subtotal < 500000 →
   PricingEngine.bracket_loop
     (PricingEngine.shipping_rates PricingEngine.__init__) subtotal 0 = 30000) ∧
  (500000 <= subtotal →
   PricingEngine.bracket_loop
     (PricingEngine.shipping_rates PricingEngine.__init__) subtotal 0 = 0).
Proof.
  intros H0. simpl.
  assert (Qle_bool 0 subtotal = true) as -> by by apply Qle_bool_iff.
  simpl. destruct (Qltb subtotal 200000) eqn:E1.
  { apply Qltb_true in E1. split; [done|]. split; intros; exfalso; lra. }
  apply Qltb_false in E1.
  assert (Qle_bool 200000 subtotal = true) as -> by by apply Qle_bool_iff.
  simpl. destruct (Qltb subtotal 500000) eqn:E2.
  { apply Qltb_true in E2. split; [intros; exfalso; lra|].
    split; [done|intros; exfalso; lra]. }
  apply Qltb_false in E2.
  assert (Qle_bool 500000 subtotal = true) as -> by by apply Qle_bool_iff.
  simpl. split; [intros; exfalso; lra|]. split; [intros; exfalso; lra|done].
Qed.

Lemma brackets_partition (subtotal : Q) :
  0 <= subtotal →
  ∃ i bracket,
    PricingEngine.shipping_rates PricingEngine.__init__ !! i = Some bracket ∧
    in_bracket subtotal bracket ∧
    ∀ j bracket',
      PricingEngine.shipping_rates PricingEngine.__init__ !! j = Some bracket' →
      in_bracket subtotal bracket' → j = i.
Proof.
  intros H0. unfold in_bracket.
  destruct (Qlt_le_dec subtotal 200000) as [H1|H1];
    [|destruct (Qlt_le_dec subtotal 500000) as [H2|H2]].
  - exists 0%nat. eexists. split; [reflexivity|]. simpl. split; [done|].
    intros [|[|[|j]]] b Hb [Hlo Hhi]; simpl in Hb; simplify_eq; simpl in *;
      [done|lra|lra].
  - exists 1%nat. eexists. split; [reflexivity|]. simpl. split; [done|].
    intros [|[|[|j]]] b Hb [Hlo Hhi]; simpl in Hb; simplify_eq; simpl in *;
      [lra|done|lra].
  - exists 2%nat. eexists. split; [reflexivity|]. simpl. split; [done|].
    intros [|[|[|j]]] b Hb [Hlo Hhi]; simpl in Hb; simplify_eq; simpl in *;
      [lra|lra|done].
Qed.

(** C6 - For every subtotal >= 0 and weight >= 0, [calculate_shipping_fee]
    returns the base fee of the subtotal's bracket (50,000 on [0, 200,000),
    30,000 on [200,000, 500,000), 0 from 500,000 on), plus
    [(weight - 5) * 10,000] when the weight exceeds 5 and nothing otherwise;
    the subtotal lies in exactly one of the three half-open brackets. *)
Theorem calculate_shipping_fee_brackets
    (rules : list DiscountRule.t) (subtotal weight : Q) :
  0 <= subtotal → 0 <= weight →
  ∃ base_fee,
    (subtotal < 200000 → base_fee = 50000) ∧
    (200000 <= subtotal → subtotal < 500000 → base_fee = 30000) ∧
    (500000 <= subtotal → base_fee = 0) ∧
    (5 < weight →
     PricingEngine.calculate_shipping_fee (engine rules) subtotal weight
     = base_fee + (weight - 5) * 10000) ∧
    (weight <= 5 →
     PricingEngine.calculate_shipping_fee (engine rules) subtotal weight
     = base_fee) ∧
    ∃ i bracket,
      PricingEngine.shipping_rates (engine rules) !! i = Some bracket ∧
      in_bracket subtotal bracket ∧
      ∀ j bracket',
        PricingEngine.shipping_rates (engine rules) !! j = Some bracket' →
        in_bracket subtotal bracket' → j = i.
Proof.
  intros Hs Hw. rewrite engine_eq.
  exists (PricingEngine.bracket_loop
            (PricingEngine.shipping_rates PricingEngine.__init__) subtotal 0).
  destruct (bracket_loop_init subtotal Hs) as (B1 & B2 & B3).
  split; [done|]. split; [done|]. split; [done|].
  unfold PricingEngine.calculate_shipping_fee.
  cbn [PricingEngine.shipping_rates].
  change (PricingEngine.shipping_rates PricingEngine.__init__) with
    [ ((0, Finite 200000), 50000);
      ((200000, Finite 500000), 30000);
      ((500000, Infinity), 0) ] in *.
  split; [|split].
  - intros H5. apply Qltb_true in H5. by rewrite H5.
  - intros H5. apply Qltb_false in H5. by rewrite H5.
  - by apply brackets_partition.
Qed.

Lemma calculate_shipping_fee_brackets_witness :
  0 <= 250000 ∧ 0 <= 7 ∧
  ∃ base_fee,
    (250000 < 200000 → base_fee = 50000) ∧
    (200000 <= 250000 → 250000 < 500000 → base_fee = 30000) ∧
    (500000 <= 250000 → base_fee = 0) ∧
    (5 < 7 →
     PricingEngine.calculate_shipping_fee (engine [buy2_get1]) 250000 7
     = base_fee + (7 - 5) * 10000) ∧
    (7 <= 5 →
     PricingEngine.calculate_shipping_fee (engine [buy2_get1]) 250000 7
     = base_fee) ∧
    ∃ i bracket,
      PricingEngine.shipping_rates (engine [buy2_get1]) !! i = Some bracket ∧
      in_bracket 250000 bracket ∧
      ∀ j bracket',
        PricingEngine.shipping_rates (engine [buy2_get1]) !! j = Some bracket' →
        in_bracket 250000 bracket' → j = i.
Proof.
  split; [lra|]. split; [lra|].
  apply (calculate_shipping_fee_brackets [buy2_get1] 250000 7); lra.
Defined.

(** ** Loyalty points *)

(** ** The order of the sorted thresholds *)

Lemma tuple_le_spec (a b : Q * Q) :
  tuple_le a b ↔ a.1 < b.1 ∨ (a.1 == b.1 ∧ a.2 <= b.2).
Proof.
  unfold tuple_le, tuple_ltb.
  destruct (Qeq_bool b.1 a.1) eqn:E1.
  - apply Qeq_bool_iff in E1. destruct (Qeq_bool b.2 a.2) eqn:E2.
    + apply Qeq_bool_iff in E2. split; [intros _; right; split; lra | done].
    + rewrite Qltb_false. split.
      * intros H. right. split; lra.
      * intros [H|[_ H]]; [lra | done].
  - apply Qeq_bool_neq in E1. rewrite Qltb_false. split.
    + intros H. left. destruct (Qlt_le_dec a.1 b.1) as [|Hge]; [done|].
      exfalso. apply E1. lra.
    + intros [H|[H _]]; lra.
Qed.

Lemma tuple_le_key (a b : Q * Q) : tuple_le a b → a.1 <= b.1.
Proof. rewrite tuple_le_spec. intros [H|[H _]]; lra. Qed.

#[global] Instance tuple_le_total : Total tuple_le.
Proof.
  intros a b. rewrite !tuple_le_spec.
  destruct (Qlt_le_dec a.1 b.1) as [|H1]; [by left; left|].
  destruct (Qlt_le_dec b.1 a.1) as [|H2]; [by right; left|].
  destruct (Qlt_le_dec b.2 a.2) as [H3|H3].
  - right. right. split; lra.
  - left. right. split; lra.
Qed.

#[global] Instance tuple_le_trans : Transitive tuple_le.
Proof.
  intros a b c. rewrite !tuple_le_spec.
  intros [H1|[H1 H1']] [H2|[H2 H2']].
  - left. lra.
  - left. lra.
  - left. lra.
  - right. split; lra.
Qed.

Lemma sorted_perm (items : list (Q * Q)) : sorted items ≡ₚ items.
Proof. apply merge_sort_Permutation. Qed.

Lemma sorted_ascending (items : list (Q * Q)) :
  StronglySorted tuple_le (sorted items).
Proof. apply StronglySorted_merge_sort; apply _. Qed.

(** ** The loop over the thresholds *)

Section tier_loop.
Variable item : CartItem.t.

(** Thresholds above the subtotal leave the candidate unchanged. *)
Lemma fold_tier_step_unmet (l : list (Q * Q)) (d : Q) :
  Forall (λ e, CartItem.subtotal item < e.1) l →
  fold_left (PricingEngine.tier_step item) l d = d.
Proof.
  revert d. induction l as [|[th pct] l IH]; intros d Hl; [done|].
  apply Forall_cons in Hl as [Hx Hl]. simpl in *.
  apply Qle_bool_false in Hx. rewrite Hx. by apply IH.
Qed.

(** The last threshold met overwrites everything before it. *)
Lemma fold_tier_step_last (l1 l2 : list (Q * Q)) (th pct d : Q) :
  th <= CartItem.subtotal item →
  Forall (λ e, CartItem.subtotal item < e.1) l2 →
  fold_left (PricingEngine.tier_step item) (l1 ++ (th, pct) :: l2) d
  = CartItem.subtotal item * (pct / 100).
Proof.
  intros Hmet Hl2. rewrite fold_left_app. simpl.
  apply Qle_bool_iff in Hmet. rewrite Hmet. by apply fold_tier_step_unmet.
Qed.

(** With percentages between 0 and 100 the candidate stays between 0 and
    the subtotal. *)
Lemma fold_tier_step_bounds (l : list (Q * Q)) (d : Q) :
  0 <= CartItem.subtotal item →
  Forall (λ e, 0 <= e.2 ∧ e.2 <= 100) l →
  0 <= d ∧ d <= CartItem.subtotal item →
  0 <= fold_left (PricingEngine.tier_step item) l d ∧
  fold_left (PricingEngine.tier_step item) l d <= CartItem.subtotal item.
Proof.
  intros Hs. revert d. induction l as [|[th pct] l IH]; intros d Hl Hd; [done|].
  apply Forall_cons in Hl as [[Hp0 Hp1] Hl]. simpl in *.
  apply IH; [done|]. destruct (Qle_bool th _); [|done].
  assert (CartItem.subtotal item * (pct / 100)
          == CartItem.subtotal item * pct * (1 # 100)) as -> by field.
  split; nra.
Qed.

(** In the sorted items, the highest threshold met is the last one met. *)
Lemma highest_met_is_last (items : list (Q * Q)) (th pct : Q) :
  distinct_keys items →
  (th, pct) ∈ items →
  (∀ e, e ∈ items → e.1 <= CartItem.subtotal item → e.1 <= th) →
  ∃ l1 l2, sorted items = l1 ++ (th, pct) :: l2 ∧
           Forall (λ e, CartItem.subtotal item < e.1) l2.
Proof.
  intros [Hnd Hkeys] Hin Hmax.
  assert ((th, pct) ∈ sorted items) as Hin' by by rewrite sorted_perm.
  apply list_elem_of_split in Hin' as (l1 & l2 & Heq).
  exists l1, l2. split; [done|].
  pose proof (sorted_ascending items) as Hsorted. rewrite Heq in Hsorted.
  apply StronglySorted_app_1_r, StronglySorted_inv in Hsorted as [_ Hafter].
  assert (NoDup (l1 ++ (th, pct) :: l2)) as Hnd'
    by by rewrite <- Heq, sorted_perm.
  apply NoDup_app in Hnd' as (_ & _ & [Hnotin _]%NoDup_cons).
  apply Forall_forall. intros y Hy.
  assert (y ∈ items) as Hyin.
  { rewrite <- sorted_perm, Heq. set_solver. }
  rewrite Forall_forall in Hafter.
  pose proof (tuple_le_key _ _ (Hafter y Hy)) as Hle. simpl in Hle. destruct (Qlt_le_dec (CartItem.subtotal item) y.1) as [|Hmet];
    [done|].
  exfalso. apply Hnotin.
  assert ((th, pct) = y) as ->; [|done].
  apply Hkeys; [done|done|]. simpl. specialize (Hmax y Hyin Hmet). lra.
Qed.
End tier_loop.

(** ** Bounds on the discount of one item *)

Lemma subtotal_nonneg (item : CartItem.t) :
  well_formed_item item → 0 <= CartItem.subtotal item.
Proof.
  intros [Hp Hq]. unfold CartItem.subtotal.
  apply Qmult_le_0_compat; [done|].
  change 0 with (inject_Z 0). by rewrite <- Zle_Qle.
Qed.

Lemma uncapped_bounds (item : CartItem.t) (rule : DiscountRule.t) :
  well_formed_item item → well_formed_rule rule →
  0 <= uncapped item rule ∧ uncapped item rule <= CartItem.subtotal item.
Proof.
  intros Hitem [_ Hrule]. pose proof (subtotal_nonneg item Hitem) as Hs.
  unfold uncapped. destruct (DiscountRule.discount_type rule).
  - destruct Hrule as [Hv0 Hv1].
    assert (CartItem.subtotal item * (DiscountRule.value rule / 100)
            == CartItem.subtotal item * DiscountRule.value rule * (1 # 100)) as ->
      by field.
    split; nra.
  - split; [by apply py_min_nonneg | apply py_min_le_r].
  - destruct Hrule as [Hb Hg], Hitem as [Hp Hq].
    destruct (_ <=? _)%Z; [|done].
    rewrite py_min_int_spec. unfold CartItem.subtotal.
    set (free := Z.min _ _).
    assert (0 ≤ free ≤ CartItem.quantity item)%Z as [Hf0 Hf1].
    { subst free.
      assert (0 ≤ CartItem.quantity item / DiscountRule.buy_quantity rule)%Z
        by (apply Z.div_pos; lia).
      split; [apply Z.min_glb; [nia|lia] | apply Z.le_min_r]. }
    rewrite Zle_Qle in Hf0, Hf1. change (inject_Z 0) with 0 in Hf0.
    split; nra.
  - apply fold_tier_step_bounds; [done| |lra].
    by rewrite sorted_perm.
  - done.
Qed.

(** C2 - For every cart item with a non-negative price and quantity, every
    customer and every rule whose parameters are in range (cap >= 0,
    percentage between 0 and 100, fixed amount >= 0, buy_quantity >= 1 and
    get_quantity >= 0, tier percentages between 0 and 100),
    [calculate_item_discount] returns an amount that is at least 0, at most
    the item's subtotal and at most the rule's [max_discount]. *)
Theorem calculate_item_discount_bounds
    (self : PricingEngine.t) (item : CartItem.t) (rule : DiscountRule.t)
    (customer : Customer.t) (clock : Clock) (n : nat) :
  well_formed_item item →
  well_formed_rule rule →
  ∃ d, PricingEngine.calculate_item_discount self item rule customer clock n
       = Ok (d, S n) ∧
       0 <= d ∧
       d <= Product.price (CartItem.product item) * inject_Z (CartItem.quantity item) ∧
       Qext_le d (DiscountRule.max_discount rule).
Proof.
  intros Hitem Hrule. pose proof (subtotal_nonneg item Hitem) as Hs.
  fold (CartItem.subtotal item).
  destruct (active_at (clock n) rule
            && PricingEngine._is_rule_applicable self item rule customer) eqn:E.
  - rewrite (calculate_item_discount_apply _ _ _ _ _ _ E).
    rewrite divides_by_zero_false.
    2:{ apply safe_rule_positive. intros Ht.
        destruct Hrule as [_ Hrule]. rewrite Ht in Hrule. tauto. }
    destruct (uncapped_bounds item rule Hitem Hrule) as [Hu0 Hu1].
    eexists. split; [done|]. split; [|split].
    + apply py_min_ext_nonneg; [done|apply Hrule].
    + pose proof (py_min_ext_le_l (uncapped item rule)
                    (DiscountRule.max_discount rule)). lra.
    + apply py_min_ext_le_r.
  - rewrite (calculate_item_discount_skip _ _ _ _ _ _ E).
    eexists. split; [done|]. split; [lra|]. split; [done|apply Hrule].
Qed.

Lemma calculate_item_discount_bounds_witness :
  well_formed_item (CartItem.mk (sample_product 1000000) 1) ∧
  well_formed_rule flash_sale ∧
  ∃ d, PricingEngine.calculate_item_discount PricingEngine.__init__
         (CartItem.mk (sample_product 1000000) 1) flash_sale
         (sample_customer BRONZE) still_clock 0%nat = Ok (d, 1%nat) ∧
       0 <= d ∧
       d <= 1000000 * inject_Z 1 ∧
       Qext_le d (Finite 150000).
Proof.
  assert (well_formed_item (CartItem.mk (sample_product 1000000) 1)) as Hitem
    by (split; simpl; [lra|lia]).
  assert (well_formed_rule flash_sale) as Hrule
    by (split; simpl; [lra|split; lra]).
  split; [exact Hitem|]. split; [exact Hrule|].
  apply (calculate_item_discount_bounds PricingEngine.__init__
           (CartItem.mk (sample_product 1000000) 1) flash_sale
           (sample_customer BRONZE) still_clock 0%nat Hitem Hrule).
Defined.

(** A percentage above 100 gives a discount above the item's subtotal:
    150% of 100,000 is 150,000. *)
Lemma calculate_item_discount_exceeds_subtotal :
  ¬ (∀ (self : PricingEngine.t) (item : CartItem.t) (rule : DiscountRule.t)
       (customer : Customer.t) (clock : Clock) (n n' : nat) (d : Q),
       PricingEngine.calculate_item_discount self item rule customer clock n
       = Ok (d, n') →
       0 <= d ∧
       d <= Product.price (CartItem.product item) * inject_Z (CartItem.quantity item) ∧
       Qext_le d (DiscountRule.max_discount rule)).
Proof.
  intros H.
  destruct (H PricingEngine.__init__ (CartItem.mk (sample_product 100000) 1)
              percent150 (sample_customer BRONZE) still_clock 0%nat 1%nat
              (100000 * inject_Z 1 * (150 / 100)) eq_refl) as (_ & Hle & _).
  vm_compute in Hle. by apply Hle.
Qed.

(** The other preconditions of the bounds are needed as well: a negative
    percentage gives a negative discount. *)
Example negative_percentage_negative_discount :
  ∃ d, PricingEngine.calculate_item_discount PricingEngine.__init__
         (CartItem.mk (sample_product 100000) 1)
         (DiscountRule.default "-10%" PERCENTAGE (-10))
         (sample_customer BRONZE) still_clock 0%nat = Ok (d, 1%nat) ∧
       d == -10000.
Proof. eexists. split; [vm_compute; reflexivity|reflexivity]. Qed.

(** ** Tiered rules *)

Lemma StronglySorted_keys (l : list (Q * Q)) :
  StronglySorted tuple_le l → StronglySorted (λ a b : Q * Q, a.1 <= b.1) l.
Proof.
  induction 1 as [|a l Hl IH Ha]; constructor; [done|].
  eapply Forall_impl; [exact Ha|]. intros b. apply tuple_le_key.
Qed.

(** C7 - For an active, applicable Tiered rule, [calculate_item_discount]
    runs over the (threshold, percent) pairs in ascending threshold order and
    overwrites the candidate at every threshold the subtotal meets or
    exceeds; so the percentage of the highest threshold met wins (nothing is
    summed), and the candidate stays 0 when no threshold is met.  With
    thresholds {10,000,000: 5%, 20,000,000: 10%} and an item subtotal of
    25,000,000 the discount is 2,500,000. *)
Theorem tiered_highest_threshold_wins :
  (∀ (self : PricingEngine.t) (item : CartItem.t) (rule : DiscountRule.t)
     (customer : Customer.t) (clock : Clock) (n : nat),
     DiscountRule.discount_type rule = TIERED →
     DiscountRule.is_active rule clock n = Ok (true, S n) →
     PricingEngine._is_rule_applicable self item rule customer = true →
     (∃ l, l ≡ₚ DiscountRule.tier_thresholds rule ∧
           StronglySorted (λ a b : Q * Q, a.1 <= b.1) l ∧
           PricingEngine.calculate_item_discount self item rule customer clock n
           = Ok (py_min_ext (fold_left (PricingEngine.tier_step item) l 0)
                            (DiscountRule.max_discount rule), S n)) ∧
     (distinct_keys (DiscountRule.tier_thresholds rule) →
      ∀ threshold percent,
        (threshold, percent) ∈ DiscountRule.tier_thresholds rule →
        threshold <= CartItem.subtotal item →
        (∀ e, e ∈ DiscountRule.tier_thresholds rule →
              e.1 <= CartItem.subtotal item → e.1 <= threshold) →
        PricingEngine.calculate_item_discount self item rule customer clock n
        = Ok (py_min_ext (CartItem.subtotal item * (percent / 100))
                         (DiscountRule.max_discount rule), S n)) ∧
     ((∀ e, e ∈ DiscountRule.tier_thresholds rule →
            CartItem.subtotal item < e.1) →
      PricingEngine.calculate_item_discount self item rule customer clock n
      = Ok (py_min_ext 0 (DiscountRule.max_discount rule), S n))) ∧
  (∃ d, PricingEngine.calculate_item_discount PricingEngine.__init__
          (CartItem.mk (sample_product 25000000) 1) sample_tiered
          (sample_customer BRONZE) still_clock 0%nat = Ok (d, 1%nat) ∧
        d == 2500000).
Proof.
  split; [|by eexists; split; [vm_compute; reflexivity|]].
  intros self item rule customer clock n Ht Ha Hp.
  rewrite is_active_run in Ha.
  assert (active_at (clock n) rule
          && PricingEngine._is_rule_applicable self item rule customer = true) as E.
  { rewrite Hp, andb_true_r. congruence. }
  rewrite (calculate_item_discount_apply _ _ _ _ _ _ E).
  assert (divides_by_zero item rule = false) as ->.
  { unfold divides_by_zero. by rewrite Ht. }
  unfold uncapped. rewrite Ht. split; [|split].
  - exists (sorted (DiscountRule.tier_thresholds rule)).
    split; [apply sorted_perm|]. split; [|done].
    apply StronglySorted_keys, sorted_ascending.
  - intros Hkeys th pct Hin Hmet Hmax.
    destruct (highest_met_is_last item _ th pct Hkeys Hin Hmax)
      as (l1 & l2 & -> & Hl2).
    by rewrite fold_tier_step_last.
  - intros Hnone. rewrite fold_tier_step_unmet; [done|].
    apply Forall_forall. intros e He. apply Hnone. by rewrite <- sorted_perm.
Qed.

Lemma tiered_highest_threshold_wins_witness :
  DiscountRule.discount_type sample_tiered = TIERED ∧
  DiscountRule.is_active sample_tiered still_clock 0%nat = Ok (true, 1%nat) ∧
  PricingEngine._is_rule_applicable PricingEngine.__init__
    (CartItem.mk (sample_product 25000000) 1) sample_tiered
    (sample_customer BRONZE) = true ∧
  ∃ l, l ≡ₚ DiscountRule.tier_thresholds sample_tiered ∧
       StronglySorted (λ a b : Q * Q, a.1 <= b.1) l ∧
       PricingEngine.calculate_item_discount PricingEngine.__init__
         (CartItem.mk (sample_product 25000000) 1) sample_tiered
         (sample_customer BRONZE) still_clock 0%nat
       = Ok (py_min_ext
               (fold_left
                  (PricingEngine.tier_step (CartItem.mk (sample_product 25000000) 1))
                  l 0)
               (DiscountRule.max_discount sample_tiered), 1%nat).
Proof.
  split; [reflexivity|]. split; [reflexivity|]. split; [reflexivity|].
  apply (proj1 (proj1 tiered_highest_threshold_wins PricingEngine.__init__
                  (CartItem.mk (sample_product 25000000) 1) sample_tiered
                  (sample_customer BRONZE) still_clock 0%nat
                  eq_refl eq_refl eq_refl)).
Defined.

(** ** The selection of the best rule for one item *)

Lemma calculate_item_discount_safe self item rule customer clock n :
  safe_rule rule →
  ∃ d, PricingEngine.calculate_item_discount self item rule customer clock n
       = Ok (d, S n).
Proof.
  intros Hsafe.
  destruct (active_at (clock n) rule
            && PricingEngine._is_rule_applicable self item rule customer) eqn:E.
  - rewrite (calculate_item_discount_apply _ _ _ _ _ _ E).
    rewrite (divides_by_zero_false _ _ Hsafe). eauto.
  - rewrite (calculate_item_discount_skip _ _ _ _ _ _ E). eauto.
Qed.

Lemma best_rule_loop_cons self item customer rule rest best clock n :
  PricingEngine.best_rule_loop self item customer (rule :: rest) best clock n =
  match PricingEngine.calculate_item_discount self item rule customer clock n with
  | Ok (d, n') =>
      PricingEngine.best_rule_loop self item customer rest
        (if Qltb best.1 d then (d, Some rule) else best) clock n'
  | Raise e => Raise e
  end.
Proof. reflexivity. Qed.

Lemma best_rule_loop_total self item customer clock rules :
  Forall safe_rule rules →
  ∀ best n, ∃ res,
    PricingEngine.best_rule_loop self item customer rules best clock n
    = Ok (res, (n + length rules)%nat).
Proof.
  induction 1 as [|rule rest Hsafe _ IH]; intros best n.
  - exists best. simpl. run. by rewrite Nat.add_0_r.
  - rewrite best_rule_loop_cons.
    destruct (calculate_item_discount_safe self item rule customer clock n Hsafe)
      as [d ->].
    destruct (IH (if Qltb best.1 d then (d, Some rule) else best) (S n))
      as [res Hres].
    exists res. rewrite Hres. f_equal. f_equal. simpl. lia.
Qed.

Lemma best_rule_loop_spec self item customer clock rules :
  ∀ b0 r0 n bd br n',
    PricingEngine.best_rule_loop self item customer rules (b0, r0) clock n
    = Ok ((bd, br), n') →
    n' = (n + length rules)%nat ∧
    b0 <= bd ∧
    (∀ j rule, rules !! j = Some rule →
       ∃ d, PricingEngine.calculate_item_discount self item rule customer clock (n + j)%nat
            = Ok (d, S (n + j)%nat) ∧ d <= bd) ∧
    ((bd, br) = (b0, r0) ∨
     ∃ j winner,
       rules !! j = Some winner ∧ br = Some winner ∧
       PricingEngine.calculate_item_discount self item winner customer clock (n + j)%nat
       = Ok (bd, S (n + j)%nat) ∧
       b0 < bd ∧
       ∀ j' rule, (j' < j)%nat → rules !! j' = Some rule →
         ∃ d, PricingEngine.calculate_item_discount self item rule customer clock (n + j')%nat
              = Ok (d, S (n + j')%nat) ∧ d < bd).
Proof.
  induction rules as [|rule rest IH]; intros b0 r0 n bd br n' Hrun.
  - simpl in Hrun. run. simplify_eq. rewrite Nat.add_0_r.
    split; [done|]. split; [lra|]. split; [|by left].
    intros j r Hj. by rewrite lookup_nil in Hj.
  - rewrite best_rule_loop_cons in Hrun.
    destruct (PricingEngine.calculate_item_discount self item rule customer clock n)
      as [[d n1]|e] eqn:Hd; [|done].
    pose proof (calculate_item_discount_tick _ _ _ _ _ _ _ _ Hd) as ->.
    destruct (Qltb b0 d) eqn:Hlt; simpl in Hrun; rewrite Hlt in Hrun.
    + apply Qltb_true in Hlt.
      apply IH in Hrun as (-> & Hle & Hall & Hsel).
      split; [simpl; lia|]. split; [lra|]. split.
      { intros [|j] r Hj; simpl in Hj.
        - simplify_eq. rewrite Nat.add_0_r. exists d. split; [done|lra].
        - destruct (Hall j r Hj) as (d' & Hd' & Hle').
          exists d'. by rewrite <- Nat.add_succ_comm. }
      right. destruct Hsel as [Hsame|(j & w & Hj & -> & Hw & Hbd & Hbefore)].
      * simplify_eq. exists 0%nat, rule. rewrite Nat.add_0_r.
        split; [done|]. split; [done|]. split; [done|]. split; [done|].
        intros j' r' Hj'. lia.
      * exists (S j), w. rewrite <- Nat.add_succ_comm.
        split; [done|]. split; [done|]. split; [done|]. split; [lra|].
        intros [|j'] r' Hj' Hr'; simpl in Hr'.
        -- simplify_eq. rewrite Nat.add_0_r. exists d. split; [done|lra].
        -- rewrite <- Nat.add_succ_comm. apply Hbefore; [lia|done].
    + apply Qltb_false in Hlt.
      apply IH in Hrun as (-> & Hle & Hall & Hsel).
      split; [simpl; lia|]. split; [lra|]. split.
      { intros [|j] r Hj; simpl in Hj.
        - simplify_eq. rewrite Nat.add_0_r. exists d. split; [done|lra].
        - destruct (Hall j r Hj) as (d' & Hd' & Hle').
          exists d'. by rewrite <- Nat.add_succ_comm. }
      destruct Hsel as [Hsame|(j & w & Hj & -> & Hw & Hbd & Hbefore)];
        [by left|right].
      exists (S j), w. rewrite <- Nat.add_succ_comm.
      split; [done|]. split; [done|]. split; [done|]. split; [lra|].
      intros [|j'] r' Hj' Hr'; simpl in Hr'.
      * simplify_eq. rewrite Nat.add_0_r. exists d. split; [done|lra].
      * rewrite <- Nat.add_succ_comm. apply Hbefore; [lia|done].
Qed.

Lemma best_rule_loop_wins self item customer clock rules n bd br n' :
  PricingEngine.best_rule_loop self item customer rules (0, None) clock n
  = Ok ((bd, br), n') →
  n' = (n + length rules)%nat ∧ wins self customer clock rules item n bd br.
Proof.
  intros Hrun.
  apply best_rule_loop_spec in Hrun as (-> & Hle & Hall & Hsel).
  split; [done|]. split; [done|].
  destruct Hsel as [Hsame|(j & w & Hj & -> & Hw & Hbd & Hbefore)].
  - by simplify_eq.
  - exists j. eauto.
Qed.

(** ** The loop over the cart *)

Lemma Qsum_cons (x : Q) (xs : list Q) : Qsum (x :: xs) = x + Qsum xs.
Proof. reflexivity. Qed.

Lemma py_sum_from (xs : list Q) (a : Q) : fold_left Qplus xs a == a + Qsum xs.
Proof.
  revert a. induction xs as [|x xs IH]; intros a; simpl.
  - ring.
  - rewrite IH. ring.
Qed.

Lemma py_sum_Qsum (xs : list Q) : py_sum xs == Qsum xs.
Proof. unfold py_sum. rewrite py_sum_from. ring. Qed.

Lemma wins_consistent self customer clock rules item n bd br :
  wins self customer clock rules item n bd br → consistent (bd, br).
Proof.
  intros [_ H]. unfold consistent. simpl. destruct br as [w|]; [|done].
  by destruct H as (j & _ & _ & Hpos & _).
Qed.

Lemma record_best_run item pick results clock n :
  consistent pick →
  PricingEngine.record_best item pick results clock n
  = Ok (record_pick results (item, pick), n).
Proof.
  destruct pick as [bd [w|]]; unfold consistent, record_pick; simpl.
  - intros Hpos. apply Qltb_true in Hpos. by rewrite Hpos.
  - by intros ->.
Qed.

Lemma item_loop_cons self customer item rest results clock n :
  PricingEngine.item_loop self customer (item :: rest) results clock n =
  match PricingEngine.best_rule_loop self item customer
          (PricingEngine.discount_rules self) (0, None) clock n with
  | Ok (best, n1) =>
      match PricingEngine.record_best item best results clock n1 with
      | Ok (results', n2) =>
          PricingEngine.item_loop self customer rest results' clock n2
      | Raise e => Raise e
      end
  | Raise e => Raise e
  end.
Proof.
  simpl. unfold mbind at 1, M_bind at 1.
  destruct (PricingEngine.best_rule_loop _ _ _ _ _ _ _) as [[best n1]|e]; done.
Qed.

Lemma item_loop_spec self customer clock items :
  ∀ results n res n',
    PricingEngine.item_loop self customer items results clock n = Ok (res, n') →
    n' = (n + length items * length (PricingEngine.discount_rules self))%nat ∧
    ∃ picks : list (Q * option DiscountRule.t),
      length picks = length items ∧
      (∀ i item, items !! i = Some item →
         ∃ bd br, picks !! i = Some (bd, br) ∧
           wins self customer clock (PricingEngine.discount_rules self) item
             (n + i * length (PricingEngine.discount_rules self))%nat bd br) ∧
      res = fold_left record_pick (zip items picks) results.
Proof.
  induction items as [|item rest IH]; intros results n res n' Hrun.
  - simpl in Hrun. run. simplify_eq. split; [lia|].
    exists []. split; [done|]. split; [|done].
    intros i item Hi. by rewrite lookup_nil in Hi.
  - rewrite item_loop_cons in Hrun.
    destruct (PricingEngine.best_rule_loop _ _ _ _ _ _ _)
      as [[[bd br] n1]|e] eqn:Hbest; [|done].
    apply best_rule_loop_wins in Hbest as [-> Hwins].
    rewrite record_best_run in Hrun by by eapply wins_consistent.
    apply IH in Hrun as (-> & picks & Hlen & Hpicks & ->).
    split; [simpl; lia|].
    exists ((bd, br) :: picks). split; [simpl; lia|]. split; [|done].
    intros [|i] it Hi; simpl in Hi.
    + simplify_eq. exists bd, br. split; [done|].
      by rewrite Nat.mul_0_l, Nat.add_0_r.
    + destruct (Hpicks i it Hi) as (bd' & br' & Hp & Hw).
      exists bd', br'. split; [done|].
      replace (n + S i * _)%nat
        with (n + length (PricingEngine.discount_rules self)
              + i * length (PricingEngine.discount_rules self))%nat by lia.
      done.
Qed.

Lemma item_loop_total self customer clock items :
  Forall safe_rule (PricingEngine.discount_rules self) →
  ∀ results n, ∃ res,
    PricingEngine.item_loop self customer items results clock n
    = Ok (res, (n + length items * length (PricingEngine.discount_rules self))%nat).
Proof.
  intros Hsafe. induction items as [|item rest IH]; intros results n.
  - exists results. simpl. run. f_equal. f_equal. lia.
  - rewrite item_loop_cons.
    destruct (best_rule_loop_total self item customer clock _ Hsafe (0, None) n)
      as [[bd br] Hbest].
    rewrite Hbest. apply best_rule_loop_wins in Hbest as [_ Hwins].
    rewrite record_best_run by by eapply wins_consistent.
    destruct (IH (record_pick results (item, (bd, br)))
                 (n + length (PricingEngine.discount_rules self))%nat)
      as [res Hres].
    exists res. rewrite Hres. f_equal. f_equal. simpl. lia.
Qed.

(** ** The report built by the loop *)

Section report.
Implicit Types (picks : list (CartItem.t * (Q * option DiscountRule.t))).
Implicit Types (results : DiscountInfo.t).

Lemma fold_record_subtotal picks results :
  DiscountInfo.subtotal (fold_left record_pick picks results)
  = DiscountInfo.subtotal results.
Proof.
  revert results. induction picks as [|[item [bd [w|]]] picks IH];
    intros results; simpl; [done| |apply IH].
  unfold record_pick at 2. simpl. by rewrite IH.
Qed.

Lemma fold_record_total picks results :
  Forall (λ pick, consistent pick.2) picks →
  DiscountInfo.total_discount (fold_left record_pick picks results)
  == DiscountInfo.total_discount results + Qsum (picks.*2.*1).
Proof.
  intros Hc. revert results.
  induction Hc as [|[item [bd [w|]]] picks Hp _ IH]; intros results.
  - simpl. ring.
  - rewrite !fmap_cons, Qsum_cons. cbn [fold_left]. rewrite IH.
    unfold record_pick. cbn [fst snd DiscountInfo.total_discount]. ring.
  - rewrite !fmap_cons, Qsum_cons. cbn [fold_left]. rewrite IH.
    unfold consistent in Hp. cbn [fst snd] in Hp. subst bd.
    unfold record_pick. cbn [fst snd]. ring.
Qed.

Lemma fold_record_lookup_Some picks results k e :
  DiscountInfo.item_discounts (fold_left record_pick picks results) !! k = Some e →
  DiscountInfo.item_discounts results !! k = Some e ∨
  ∃ item bd w, (item, (bd, Some w)) ∈ picks ∧
               PricingEngine.item_key item = k ∧ e = entry_of item bd w.
Proof.
  revert results. induction picks as [|[item [bd [w|]]] picks IH];
    intros results; simpl; [by left| |].
  - intros [Hl|(it & b & r & Hin & Hk & He)]%IH.
    + unfold record_pick in Hl. simpl in Hl.
      destruct (decide (PricingEngine.item_key item = k)) as [Heq|Hne].
      * rewrite Heq, lookup_insert_eq in Hl. simplify_eq.
        right. exists item, bd, w. split; [left|done].
      * rewrite lookup_insert_ne in Hl by done. by left.
    + right. exists it, b, r. split; [by right|done].
  - intros [Hl|(it & b & r & Hin & Hk & He)]%IH; [by left|].
    right. exists it, b, r. split; [by right|done].
Qed.

Lemma fold_record_lookup_None picks results k :
  DiscountInfo.item_discounts (fold_left record_pick picks results) !! k = None ↔
  DiscountInfo.item_discounts results !! k = None ∧
  ∀ item bd w, (item, (bd, Some w)) ∈ picks → PricingEngine.item_key item ≠ k.
Proof.
  revert results. induction picks as [|[item [bd [w|]]] picks IH];
    intros results; simpl.
  - split; [|by intros [? _]]. intros H. split; [done|].
    intros ??? Hin. by apply elem_of_nil in Hin.
  - rewrite IH. unfold record_pick at 1. simpl. split.
    + intros [Hl Hall].
      destruct (decide (PricingEngine.item_key item = k)) as [Heq|Hne].
      { by rewrite Heq, lookup_insert_eq in Hl. }
      rewrite lookup_insert_ne in Hl by done. split; [done|].
      intros it b r [Heq|Hin]%elem_of_cons; [by simplify_eq|by eapply Hall].
    + intros [Hl Hall].
      assert (PricingEngine.item_key item ≠ k) as Hne
        by (eapply Hall; left).
      rewrite lookup_insert_ne by done. split; [done|].
      intros it b r Hin. eapply Hall. by right.
  - rewrite IH. unfold record_pick at 1. simpl. split.
    + intros [Hl Hall]. split; [done|].
      intros it b r [Heq|Hin]%elem_of_cons; [by simplify_eq|by eapply Hall].
    + intros [Hl Hall]. split; [done|].
      intros it b r Hin. eapply Hall. by right.
Qed.

Lemma fold_record_applied picks results :
  NoDup (DiscountInfo.applied_rules results) →
  NoDup (DiscountInfo.applied_rules (fold_left record_pick picks results)) ∧
  ∀ name,
    name ∈ DiscountInfo.applied_rules (fold_left record_pick picks results) ↔
    name ∈ DiscountInfo.applied_rules results ∨
    ∃ item bd w, (item, (bd, Some w)) ∈ picks ∧ DiscountRule.name w = name.
Proof.
  revert results. induction picks as [|[item [bd [w|]]] picks IH];
    intros results Hnd; simpl.
  - split; [done|]. intros name. split; [by left|].
    intros [?|(?&?&?&Hin&_)]; [done|]. by apply elem_of_nil in Hin.
  - destruct (IH (record_pick results (item, (bd, Some w)))) as [Hnd' Hmem].
    { unfold record_pick. simpl. case_bool_decide as Hin; [done|].
      apply NoDup_app. split; [done|]. split; [|apply NoDup_singleton].
      intros x Hx Hx'%list_elem_of_singleton. by subst x. }
    split; [done|]. intros name. rewrite Hmem.
    unfold record_pick at 1. simpl. split.
    + intros [Hin|(it & b & r & Hin & Hname)].
      * case_bool_decide as Hw; [by left|].
        apply elem_of_app in Hin as [?|Hs%list_elem_of_singleton]; [by left|].
        subst name.
        right. exists item, bd, w. split; [left|done].
      * right. exists it, b, r. split; [by right|done].
    + intros [Hin|(it & b & r & [Heq|Hin]%elem_of_cons & Hname)].
      * left. case_bool_decide; [done|]. apply elem_of_app. by left.
      * simplify_eq. left. case_bool_decide; [done|].
        apply elem_of_app. right. by apply list_elem_of_singleton.
      * right. by exists it, b, r.
  - destruct (IH results Hnd) as [Hnd' Hmem]. split; [done|].
    intros name. rewrite Hmem. split.
    + intros [?|(it & b & r & Hin & Hname)]; [by left|].
      right. exists it, b, r. split; [by right|done].
    + intros [?|(it & b & r & [Heq|Hin]%elem_of_cons & Hname)];
        [by left|by simplify_eq|]. right. by exists it, b, r.
Qed.
End report.

Lemma elem_of_zip_lookup {A B} (l : list A) (k : list B) (x : A) (y : B) :
  (x, y) ∈ zip l k ↔ ∃ i, l !! i = Some x ∧ k !! i = Some y.
Proof.
  rewrite list_elem_of_lookup. split.
  - intros [i Hi]. exists i.
    apply lookup_zip_with_Some in Hi as (x' & y' & Heq & Hx & Hy).
    by simplify_eq.
  - intros (i & Hx & Hy). exists i. apply lookup_zip_with_Some. eauto.
Qed.

(** ** The best discount combination *)

(** C3 - [calculate_best_discount_combination] gives every cart item the
    single rule with the strictly greatest discount for that item, the first
    such rule of the rule list on ties ([wins]); an item has no winner
    exactly when its best discount is 0, and then it adds no entry to the
    itemized report, while the reported subtotal is the sum of all item
    subtotals (a key is absent from the report exactly when no item with
    that key has a winner); [total_discount] is
    the sum of the per-item winning discounts; and [applied_rules] lists,
    without repetition, exactly the names of the rules that won an item.
    The call returns whenever no rule divides by zero. *)
Theorem best_discount_combination_selects
    (rules : list DiscountRule.t) (cart : list CartItem.t)
    (customer : Customer.t) (clock : Clock) (n : nat) :
  (Forall safe_rule rules →
   ∃ res, PricingEngine.calculate_best_discount_combination
            (engine rules) cart customer clock n
          = Ok (res, (n + length cart * length rules)%nat)) ∧
  (∀ res n',
     PricingEngine.calculate_best_discount_combination
       (engine rules) cart customer clock n = Ok (res, n') →
     ∃ picks : list (Q * option DiscountRule.t),
       length picks = length cart ∧
       (∀ i item, cart !! i = Some item →
          ∃ bd br, picks !! i = Some (bd, br) ∧
            wins (engine rules) customer clock rules item
              (n + i * length rules)%nat bd br ∧
            (br = None ↔ bd == 0)) ∧
       (∀ k e, DiscountInfo.item_discounts res !! k = Some e →
          ∃ i item bd w, cart !! i = Some item ∧ picks !! i = Some (bd, Some w) ∧
                         PricingEngine.item_key item = k ∧ e = entry_of item bd w) ∧
       (∀ k, DiscountInfo.item_discounts res !! k = None ↔
          ∀ i item bd w, cart !! i = Some item → picks !! i = Some (bd, Some w) →
                         PricingEngine.item_key item ≠ k) ∧
       DiscountInfo.subtotal res = py_sum (map CartItem.subtotal cart) ∧
       DiscountInfo.total_discount res == Qsum (picks.*1) ∧
       NoDup (DiscountInfo.applied_rules res) ∧
       (∀ name, name ∈ DiscountInfo.applied_rules res ↔
          ∃ i bd w, picks !! i = Some (bd, Some w) ∧ DiscountRule.name w = name)).
Proof.
  unfold PricingEngine.calculate_best_discount_combination.
  assert (PricingEngine.discount_rules (engine rules) = rules) as Hrules
    by by rewrite engine_eq.
  split.
  - intros Hsafe.
    replace (length rules)
      with (length (PricingEngine.discount_rules (engine rules)))
      by by rewrite Hrules.
    apply item_loop_total. by rewrite Hrules.
  - intros res n' Hrun.
    apply item_loop_spec in Hrun as (_ & picks & Hlen & Hpicks & ->).
    rewrite Hrules in Hpicks.
    exists picks. split; [done|]. split.
    { intros i item Hi. destruct (Hpicks i item Hi) as (bd & br & Hp & Hw).
      exists bd, br. split; [done|]. split; [done|].
      apply wins_consistent in Hw. unfold consistent in Hw. simpl in Hw.
      destruct br as [w|]; split; intros H; [done|lra|by rewrite Hw|done]. }
    assert (Forall (λ pick : CartItem.t * (Q * option DiscountRule.t),
                      consistent pick.2) (zip cart picks)) as Hcons.
    { apply Forall_forall. intros [item [bd br]] (i & Hi & Hp)%elem_of_zip_lookup.
      destruct (Hpicks i item Hi) as (bd' & br' & Hp' & Hw). simplify_eq.
      by eapply wins_consistent. }
    split; [|split; [|split; [|split; [|split]]]].
    + intros k e [Hl|(item & bd & w & Hin & Hk & He)]%fold_record_lookup_Some.
      { simpl in Hl. by rewrite lookup_empty in Hl. }
      apply elem_of_zip_lookup in Hin as (i & Hi & Hp).
      by exists i, item, bd, w.
    + intros k. rewrite fold_record_lookup_None. simpl. split.
      * intros [_ Hall] i item bd w Hi Hp. eapply Hall.
        apply elem_of_zip_lookup. eauto.
      * intros Hall. split; [apply lookup_empty|].
        intros item bd w (i & Hi & Hp)%elem_of_zip_lookup. eauto.
    + by rewrite fold_record_subtotal.
    + rewrite fold_record_total by done. simpl.
      rewrite snd_zip by lia. ring.
    + apply fold_record_applied. simpl. constructor.
    + intros name.
      destruct (fold_record_applied (zip cart picks)
                  (DiscountInfo.mk ∅ 0 [] (py_sum (map CartItem.subtotal cart))))
        as [_ Hmem]; [simpl; constructor|].
      rewrite Hmem. simpl. split.
      * intros [Hin|(item & bd & w & (i & Hi & Hp)%elem_of_zip_lookup & Hname)].
        { by apply elem_of_nil in Hin. }
        by exists i, bd, w.
      * intros (i & bd & w & Hp & Hname). right.
        destruct (lookup_lt_is_Some_2 cart i) as [item Hi].
        { rewrite <- Hlen. by eapply lookup_lt_Some. }
        exists item, bd, w. split; [|done].
        apply elem_of_zip_lookup. eauto.
Qed.

Lemma best_discount_combination_selects_witness :
  Forall safe_rule [flash_sale; buy2_get1] ∧
  ∃ res n',
    PricingEngine.calculate_best_discount_combination
      (engine [flash_sale; buy2_get1])
      [CartItem.mk (sample_product 1000000) 1] (sample_customer BRONZE)
      still_clock 0%nat = Ok (res, n') ∧
    ∃ picks : list (Q * option DiscountRule.t),
      length picks = 1%nat ∧
      DiscountInfo.total_discount res == Qsum (picks.*1) ∧
      NoDup (DiscountInfo.applied_rules res).
Proof.
  assert (Forall safe_rule [flash_sale; buy2_get1]) as Hsafe.
  { repeat constructor; intros H; simpl in *; [discriminate|lia]. }
  split; [exact Hsafe|].
  destruct (proj1 (best_discount_combination_selects [flash_sale; buy2_get1]
                     [CartItem.mk (sample_product 1000000) 1]
                     (sample_customer BRONZE) still_clock 0%nat) Hsafe)
    as [res Hres].
  eexists res, _. split; [exact Hres|].
  destruct (proj2 (best_discount_combination_selects [flash_sale; buy2_get1]
                     [CartItem.mk (sample_product 1000000) 1]
                     (sample_customer BRONZE) still_clock 0%nat) res _ Hres)
    as (picks & Hlen & _ & _ & _ & _ & Htotal & Hnodup & _).
  exists picks. split; [exact Hlen|]. split; [exact Htotal|exact Hnodup].
Defined.

(** On a tie the rule that comes first in the rule list is reported. *)
Example tie_keeps_first_rule :
  ∃ res n',
    PricingEngine.calculate_best_discount_combination
      (engine [ten_percent "first"; ten_percent "second"])
      [CartItem.mk (sample_product 100000) 1] (sample_customer BRONZE)
      still_clock 0%nat = Ok (res, n') ∧
    DiscountInfo.applied_rules res = ["first"%string].
Proof. eexists _, _. split; [vm_compute; reflexivity|reflexivity]. Qed.

(** ** The pricing pipeline *)

Lemma calculate_item_discount_raise self item rule customer clock n e :
  PricingEngine.calculate_item_discount self item rule customer clock n = Raise e →
  e = ZeroDivisionError ∧ ¬ safe_rule rule.
Proof.
  intros Hrun. split.
  - destruct (active_at (clock n) rule
              && PricingEngine._is_rule_applicable self item rule customer) eqn:E.
    + rewrite (calculate_item_discount_apply _ _ _ _ _ _ E) in Hrun.
      destruct (divides_by_zero item rule); congruence.
    + by rewrite (calculate_item_discount_skip _ _ _ _ _ _ E) in Hrun.
  - intros Hsafe.
    destruct (calculate_item_discount_safe self item rule customer clock n Hsafe)
      as [d Hd]. congruence.
Qed.

Lemma best_rule_loop_raise self item customer clock rules :
  ∀ best n e,
    PricingEngine.best_rule_loop self item customer rules best clock n = Raise e →
    e = ZeroDivisionError.
Proof.
  induction rules as [|rule rest IH]; intros best n e Hrun; [done|].
  rewrite best_rule_loop_cons in Hrun.
  destruct (PricingEngine.calculate_item_discount self item rule customer clock n)
    as [[d n1]|e'] eqn:Hd.
  - by eapply IH.
  - simplify_eq. by eapply calculate_item_discount_raise.
Qed.

Lemma item_loop_raise self customer clock items :
  ∀ results n e,
    PricingEngine.item_loop self customer items results clock n = Raise e →
    e = ZeroDivisionError.
Proof.
  induction items as [|item rest IH]; intros results n e Hrun; [done|].
  rewrite item_loop_cons in Hrun.
  destruct (PricingEngine.best_rule_loop _ _ _ _ _ _ _)
    as [[[bd br] n1]|e'] eqn:Hbest.
  - apply best_rule_loop_wins in Hbest as [-> Hwins].
    rewrite record_best_run in Hrun by by eapply wins_consistent.
    by eapply IH.
  - simplify_eq. by eapply best_rule_loop_raise.
Qed.

Lemma tax_rate_engine (rules : list DiscountRule.t) :
  PricingEngine.tax_rate (engine rules) = 1 # 10.
Proof. by rewrite engine_eq. Qed.

Lemma discount_rules_engine (rules : list DiscountRule.t) :
  PricingEngine.discount_rules (engine rules) = rules.
Proof. by rewrite engine_eq. Qed.

(** C1 - [calculate_final_price] runs its stages in the fixed order: the
    product discount is the total of the best discount combination; the
    customer discount is [(subtotal - product_discount) * percent / 100] when
    [apply_customer_discount] is set and 0 otherwise; the tax is a tenth of
    [subtotal - product_discount - customer_discount]; the shipping fee is
    computed on the undiscounted subtotal; and
    [total = subtotal - product_discount - customer_discount + tax_amount
    + shipping_fee].  The call returns exactly when the discount stage does.
    For one item of unit price 100,000 and quantity 2, no rule and a Bronze
    customer: subtotal 200,000, both discounts 0, tax 20,000, shipping
    30,000, total 250,000. *)
Theorem calculate_final_price_pipeline :
  (∀ (rules : list DiscountRule.t) (cart : list CartItem.t)
     (customer : Customer.t) (apply_customer_discount : bool)
     (clock : Clock) (n : nat),
     (∀ info n',
        PricingEngine.calculate_best_discount_combination
          (engine rules) cart customer clock n = Ok (info, n') →
        ∃ b, PricingEngine.calculate_final_price
               (engine rules) cart customer apply_customer_discount clock n
             = Ok (b, n') ∧
          PriceBreakdown.subtotal b = py_sum (map CartItem.subtotal cart) ∧
          PriceBreakdown.product_discount b = DiscountInfo.total_discount info ∧
          PriceBreakdown.customer_tier_discount b
          == (if apply_customer_discount
              then (PriceBreakdown.subtotal b - PriceBreakdown.product_discount b)
                   * Customer.get_tier_discount customer / 100
              else 0) ∧
          PriceBreakdown.tax_amount b
          == (PriceBreakdown.subtotal b - PriceBreakdown.product_discount b
              - PriceBreakdown.customer_tier_discount b) * (10 / 100) ∧
          PriceBreakdown.shipping_fee b
          = PricingEngine.calculate_shipping_fee (engine rules)
              (py_sum (map CartItem.subtotal cart)) (cart_weight cart) ∧
          PriceBreakdown.total b
          == PriceBreakdown.subtotal b - PriceBreakdown.product_discount b
             - PriceBreakdown.customer_tier_discount b
             + PriceBreakdown.tax_amount b + PriceBreakdown.shipping_fee b) ∧
     (∀ e,
        PricingEngine.calculate_best_discount_combination
          (engine rules) cart customer clock n = Raise e →
        PricingEngine.calculate_final_price
          (engine rules) cart customer apply_customer_discount clock n
        = Raise e)) ∧
  (∃ b n',
     PricingEngine.calculate_final_price (engine [])
       [CartItem.mk (sample_product 100000) 2] (sample_customer BRONZE) true
       still_clock 0%nat = Ok (b, n') ∧
     PriceBreakdown.subtotal b == 200000 ∧
     PriceBreakdown.product_discount b == 0 ∧
     PriceBreakdown.customer_tier_discount b == 0 ∧
     PriceBreakdown.tax_amount b == 20000 ∧
     PriceBreakdown.shipping_fee b == 30000 ∧
     PriceBreakdown.total b == 250000).
Proof.
  split.
  - intros rules cart customer apply_discount clock n. split.
    + intros info n' Hinfo. unfold PricingEngine.calculate_final_price.
      unfold mbind, M_bind. rewrite Hinfo. unfold mret, M_ret.
      eexists. split; [reflexivity|]. cbn [PriceBreakdown.subtotal
        PriceBreakdown.product_discount PriceBreakdown.customer_tier_discount
        PriceBreakdown.tax_amount PriceBreakdown.shipping_fee PriceBreakdown.total].
      rewrite tax_rate_engine.
      split; [done|]. split; [done|]. split; [|split; [|split; [done|]]].
      * destruct apply_discount; [field|reflexivity].
      * field.
      * reflexivity.
    + intros e Hraise. unfold PricingEngine.calculate_final_price.
      unfold mbind, M_bind. by rewrite Hraise.
  - eexists _, _. split; [vm_compute; reflexivity|]. by vm_compute.
Qed.

Lemma calculate_final_price_pipeline_witness :
  ∃ info n' b,
    PricingEngine.calculate_best_discount_combination (engine [flash_sale])
      [CartItem.mk (sample_product 1000000) 1] (sample_customer GOLD)
      still_clock 0%nat = Ok (info, n') ∧
    PricingEngine.calculate_final_price (engine [flash_sale])
      [CartItem.mk (sample_product 1000000) 1] (sample_customer GOLD) true
      still_clock 0%nat = Ok (b, n') ∧
    PriceBreakdown.product_discount b = DiscountInfo.total_discount info ∧
    PriceBreakdown.total b
    == PriceBreakdown.subtotal b - PriceBreakdown.product_discount b
       - PriceBreakdown.customer_tier_discount b
       + PriceBreakdown.tax_amount b + PriceBreakdown.shipping_fee b.
Proof.
  eexists _, _.
  assert (PricingEngine.calculate_best_discount_combination (engine [flash_sale])
            [CartItem.mk (sample_product 1000000) 1] (sample_customer GOLD)
            still_clock 0%nat = Ok _) as Hinfo by (vm_compute; reflexivity).
  destruct (proj1 (proj1 calculate_final_price_pipeline [flash_sale]
                     [CartItem.mk (sample_product 1000000) 1]
                     (sample_customer GOLD) true still_clock 0%nat) _ _ Hinfo)
    as (b & Hb & _ & Hpd & _ & _ & _ & Htotal).
  exists b. split; [exact Hinfo|]. split; [exact Hb|]. split; [exact Hpd|exact Htotal].
Defined.

(** ** No validation of the inputs *)

Lemma calculate_final_price_total self cart customer apply_discount clock n :
  Forall safe_rule (PricingEngine.discount_rules self) →
  ∃ b, PricingEngine.calculate_final_price self cart customer apply_discount clock n
       = Ok (b, (n + length cart * length (PricingEngine.discount_rules self))%nat) ∧
       PriceBreakdown.subtotal b = py_sum (map CartItem.subtotal cart) ∧
       PriceBreakdown.total_weight b = cart_weight cart.
Proof.
  intros Hsafe. unfold PricingEngine.calculate_final_price.
  unfold mbind, M_bind, PricingEngine.calculate_best_discount_combination.
  destruct (item_loop_total self customer clock cart Hsafe
              (DiscountInfo.mk ∅ 0 [] (py_sum (map CartItem.subtotal cart))) n)
    as [info ->].
  unfold mret, M_ret. eexists. split; [reflexivity|]. done.
Qed.

Lemma calculate_final_price_raise self cart customer apply_discount clock n e :
  PricingEngine.calculate_final_price self cart customer apply_discount clock n
  = Raise e →
  e = ZeroDivisionError.
Proof.
  unfold PricingEngine.calculate_final_price.
  unfold mbind, M_bind, PricingEngine.calculate_best_discount_combination.
  destruct (PricingEngine.item_loop _ _ _ _ _ _) as [[info n']|e'] eqn:Hloop.
  - unfold mret, M_ret. done.
  - intros ?. simplify_eq. by eapply item_loop_raise.
Qed.

(** C4 - [calculate_final_price] validates nothing.  For every cart and
    customer, whatever the signs of the quantities, prices, costs and
    weights, and for every rule list in which no buy-X-get-Y rule has
    [buy_quantity = 0], the call returns a breakdown whose subtotal and
    weight are computed from the values as given.  The only failure the call
    can report is the [ZeroDivisionError] of that floor division, raised in
    the discount stage by a rule with a zero divisor. *)
Theorem calculate_final_price_no_validation
    (rules : list DiscountRule.t) (cart : list CartItem.t)
    (customer : Customer.t) (apply_customer_discount : bool)
    (clock : Clock) (n : nat) :
  (Forall safe_rule rules →
   ∃ b, PricingEngine.calculate_final_price
          (engine rules) cart customer apply_customer_discount clock n
        = Ok (b, (n + length cart * length rules)%nat) ∧
        PriceBreakdown.subtotal b = py_sum (map CartItem.subtotal cart) ∧
        PriceBreakdown.total_weight b = cart_weight cart) ∧
  (∀ e, PricingEngine.calculate_final_price
          (engine rules) cart customer apply_customer_discount clock n
        = Raise e →
        e = ZeroDivisionError ∧ ¬ Forall safe_rule rules).
Proof.
  split.
  - intros Hsafe.
    replace (length rules)
      with (length (PricingEngine.discount_rules (engine rules)))
      by by rewrite discount_rules_engine.
    apply calculate_final_price_total. by rewrite discount_rules_engine.
  - intros e Hraise. split; [by eapply calculate_final_price_raise|].
    intros Hsafe.
    destruct (calculate_final_price_total (engine rules) cart customer
                apply_customer_discount clock n) as (b & Hb & _).
    { by rewrite discount_rules_engine. }
    congruence.
Qed.

Lemma calculate_final_price_no_validation_witness :
  Exists invalid_item [CartItem.mk (sample_product (-100000)) (-1)] ∧
  Forall safe_rule [flash_sale] ∧
  ∃ b, PricingEngine.calculate_final_price (engine [flash_sale])
         [CartItem.mk (sample_product (-100000)) (-1)] (sample_customer BRONZE)
         true still_clock 0%nat
       = Ok (b, (0 + length [CartItem.mk (sample_product (-100000)) (-1)]
                     * length [flash_sale])%nat) ∧
       PriceBreakdown.subtotal b
       = py_sum (map CartItem.subtotal [CartItem.mk (sample_product (-100000)) (-1)]) ∧
       PriceBreakdown.total_weight b
       = cart_weight [CartItem.mk (sample_product (-100000)) (-1)].
Proof.
  assert (Forall safe_rule [flash_sale]) as Hsafe
    by (repeat constructor; intros H; discriminate).
  split; [left; left; simpl; lia|]. split; [exact Hsafe|].
  exact (proj1 (calculate_final_price_no_validation [flash_sale]
                  [CartItem.mk (sample_product (-100000)) (-1)]
                  (sample_customer BRONZE) true still_clock 0%nat) Hsafe).
Defined.

(** A cart whose only item has quantity -1 is priced like any other: the
    call returns a breakdown with subtotal -100,000. *)
Lemma invalid_item_not_rejected :
  ¬ (∀ (rules : list DiscountRule.t) (cart : list CartItem.t)
       (customer : Customer.t) (apply_customer_discount : bool)
       (clock : Clock) (n : nat),
       Exists invalid_item cart →
       ∃ e, PricingEngine.calculate_final_price
              (engine rules) cart customer apply_customer_discount clock n
            = Raise e).
Proof.
  intros H.
  destruct (H [] [CartItem.mk (sample_product 100000) (-1)]
              (sample_customer BRONZE) true still_clock 0%nat) as [e He].
  - left. left. simpl. lia.
  - vm_compute in He. discriminate.
Qed.

Example invalid_item_priced :
  ∃ b n', PricingEngine.calculate_final_price (engine [])
            [CartItem.mk (sample_product 100000) (-1)] (sample_customer BRONZE)
            true still_clock 0%nat = Ok (b, n') ∧
          PriceBreakdown.subtotal b == -100000.
Proof. eexists _, _. split; [vm_compute; reflexivity|reflexivity]. Qed.

(** ** Loyalty tier and total *)

Lemma is_rule_applicable_any_tier self item rule (c1 c2 : Customer.t) :
  DiscountRule.customer_tiers rule = [] →
  PricingEngine._is_rule_applicable self item rule c1
  = PricingEngine._is_rule_applicable self item rule c2.
Proof.
  intros Ht. unfold PricingEngine._is_rule_applicable. by rewrite Ht.
Qed.

Lemma calculate_item_discount_any_tier self item rule (c1 c2 : Customer.t) clock n :
  DiscountRule.customer_tiers rule = [] →
  PricingEngine.calculate_item_discount self item rule c1 clock n
  = PricingEngine.calculate_item_discount self item rule c2 clock n.
Proof.
  intros Ht. unfold PricingEngine.calculate_item_discount.
  by rewrite (is_rule_applicable_any_tier self item rule c1 c2 Ht).
Qed.

Lemma best_rule_loop_any_tier self item (c1 c2 : Customer.t) clock rules :
  Forall (λ rule, DiscountRule.customer_tiers rule = []) rules →
  ∀ best n,
    PricingEngine.best_rule_loop self item c1 rules best clock n
    = PricingEngine.best_rule_loop self item c2 rules best clock n.
Proof.
  induction 1 as [|rule rest Ht _ IH]; intros best n; [done|].
  rewrite !best_rule_loop_cons.
  rewrite (calculate_item_discount_any_tier self item rule c1 c2 clock n Ht).
  destruct (PricingEngine.calculate_item_discount _ _ _ _ _ _) as [[d n1]|e];
    [apply IH|done].
Qed.

Lemma item_loop_any_tier self (c1 c2 : Customer.t) clock items :
  Forall (λ rule, DiscountRule.customer_tiers rule = [])
         (PricingEngine.discount_rules self) →
  ∀ results n,
    PricingEngine.item_loop self c1 items results clock n
    = PricingEngine.item_loop self c2 items results clock n.
Proof.
  intros Ht. induction items as [|item rest IH]; intros results n; [done|].
  rewrite !item_loop_cons.
  rewrite (best_rule_loop_any_tier self item c1 c2 clock _ Ht).
  destruct (PricingEngine.best_rule_loop _ _ _ _ _ _ _) as [[best n1]|e]; [|done].
  destruct (PricingEngine.record_best _ _ _ _ _) as [[results' n2]|e]; [|done].
  apply IH.
Qed.

Lemma get_tier_discount_mono (customer : Customer.t) (lower higher : CustomerTier) :
  (tier_rank lower ≤ tier_rank higher)%nat →
  Customer.get_tier_discount (with_tier customer lower)
  <= Customer.get_tier_discount (with_tier customer higher).
Proof.
  unfold Customer.get_tier_discount. simpl.
  destruct lower, higher; simpl; intros H; try lia; lra.
Qed.

Lemma get_tier_discount_nonneg (customer : Customer.t) :
  0 <= Customer.get_tier_discount customer.
Proof. unfold Customer.get_tier_discount. destruct (Customer.tier _); lra. Qed.

(** A rule reserved to Bronze customers makes the Bronze total (550,000)
    smaller than the VIP total (880,000) for the same cart. *)
Lemma tier_restricted_rule_breaks_monotonicity :
  ¬ (∀ (rules : list DiscountRule.t) (cart : list CartItem.t)
       (customer : Customer.t) (lower higher : CustomerTier)
       (apply_customer_discount : bool) (clock : Clock) (n n1 n2 : nat)
       (b_lower b_higher : PriceBreakdown.t),
       (tier_rank lower ≤ tier_rank higher)%nat →
       PricingEngine.calculate_final_price (engine rules) cart
         (with_tier customer lower) apply_customer_discount clock n
       = Ok (b_lower, n1) →
       PricingEngine.calculate_final_price (engine rules) cart
         (with_tier customer higher) apply_customer_discount clock n
       = Ok (b_higher, n2) →
       PriceBreakdown.total b_higher <= PriceBreakdown.total b_lower).
Proof.
  intros H.
  assert (tier_rank BRONZE ≤ tier_rank VIP)%nat as Hrank by (simpl; lia).
  specialize (H [bronze_only] [CartItem.mk (sample_product 1000000) 1]
                (sample_customer BRONZE) BRONZE VIP true still_clock
                0%nat _ _ _ _ Hrank eq_refl eq_refl).
  vm_compute in H. by apply H.
Qed.

(** The bound on the product discount is needed as well: with a discount of
    150% the discounted subtotal is negative, and the tier percentage then
    raises the total (-5,000 for Bronze, 6,000 for VIP). *)
Example discount_above_subtotal_raises_total :
  ∃ b_lower b_higher n',
    PricingEngine.calculate_final_price (engine [percent150])
      [CartItem.mk (sample_product 100000) 1] (sample_customer BRONZE) true
      still_clock 0%nat = Ok (b_lower, n') ∧
    PricingEngine.calculate_final_price (engine [percent150])
      [CartItem.mk (sample_product 100000) 1] (sample_customer VIP) true
      still_clock 0%nat = Ok (b_higher, n') ∧
    PriceBreakdown.total b_lower == -5000 ∧
    PriceBreakdown.total b_higher == 6000.
Proof.
  eexists _, _, _. split; [vm_compute; reflexivity|].
  split; [vm_compute; reflexivity|]. split; reflexivity.
Qed.

(** * Further properties of the engine *)

(** ** Eligibility *)

(** X1 - [is_active] reads the clock once and answers [True] exactly when
    the reading lies in the closed window: not before [start_date] and not
    after [end_date], a missing date leaving its side open. *)
Theorem is_active_window (rule : DiscountRule.t) (clock : Clock) (n : nat) :
  ∃ b, DiscountRule.is_active rule clock n = Ok (b, S n) ∧
       (b = true ↔
        (∀ s, DiscountRule.start_date rule = Some s → (s ≤ clock n)%Z) ∧
        (∀ e, DiscountRule.end_date rule = Some e → (clock n ≤ e)%Z)).
Proof.
  exists (active_at (clock n) rule). split; [apply is_active_run|].
  unfold active_at. rewrite andb_true_iff, !negb_true_iff.
  apply Morphisms_Prop.and_iff_morphism.
  - destruct (DiscountRule.start_date rule) as [s|].
    + rewrite Z.ltb_ge. split.
      * intros H s' [= <-]. done.
      * intros H. by apply H.
    + split; [by intros _ s' ?|done].
  - destruct (DiscountRule.end_date rule) as [e|].
    + rewrite Z.ltb_ge. split.
      * intros H e' [= <-]. done.
      * intros H. by apply H.
    + split; [by intros _ e' ?|done].
Qed.

Lemma truthy_filter {A} `{EqDecision A} (x : A) (l : list A) :
  truthy l && negb (bool_decide (x ∈ l)) = false ↔ l = [] ∨ x ∈ l.
Proof.
  destruct l as [|y l]; simpl.
  - split; [by left|done].
  - case_bool_decide as H; simpl; split; try done.
    + by right.
    + intros [?|?]; done.
Qed.

(** X2 - [_is_rule_applicable] holds exactly when the item reaches the
    rule's minimum quantity and minimum amount and passes each of the three
    allow-lists (categories, product ids, customer tiers), an empty list
    allowing everything. *)
Theorem is_rule_applicable_iff
    (self : PricingEngine.t) (item : CartItem.t) (rule : DiscountRule.t)
    (customer : Customer.t) :
  PricingEngine._is_rule_applicable self item rule customer = true ↔
  (DiscountRule.min_quantity rule ≤ CartItem.quantity item)%Z ∧
  DiscountRule.min_amount rule <= CartItem.subtotal item ∧
  (DiscountRule.applicable_categories rule = [] ∨
   Product.category (CartItem.product item) ∈ DiscountRule.applicable_categories rule) ∧
  (DiscountRule.applicable_products rule = [] ∨
   Product.id (CartItem.product item) ∈ DiscountRule.applicable_products rule) ∧
  (DiscountRule.customer_tiers rule = [] ∨
   Customer.tier customer ∈ DiscountRule.customer_tiers rule).
Proof.
  unfold PricingEngine._is_rule_applicable.
  rewrite <- !truthy_filter.
  destruct (Z.ltb_spec (CartItem.quantity item) (DiscountRule.min_quantity rule)).
  { split; [done|]. intros [? _]. lia. }
  destruct (Qltb (CartItem.subtotal item) (DiscountRule.min_amount rule)) eqn:Ha.
  { apply Qltb_true in Ha. split; [done|]. intros (_ & ? & _). lra. }
  apply Qltb_false in Ha.
  destruct (truthy (DiscountRule.applicable_categories rule) && _);
    [split; [done|]; by intros (_ & _ & ? & _)|].
  destruct (truthy (DiscountRule.applicable_products rule) && _);
    [split; [done|]; by intros (_ & _ & _ & ? & _)|].
  destruct (truthy (DiscountRule.customer_tiers rule) && _);
    [split; [done|]; by intros (_ & _ & _ & _ & ?)|].
  done.
Qed.

(** ** Failure and cap of one evaluation *)

Lemma divides_by_zero_true (item : CartItem.t) (rule : DiscountRule.t) :
  divides_by_zero item rule = true ↔
  DiscountRule.discount_type rule = BUY_X_GET_Y ∧
  DiscountRule.buy_quantity rule = 0%Z ∧
  (0 ≤ CartItem.quantity item)%Z.
Proof.
  unfold divides_by_zero.
  rewrite !andb_true_iff, bool_decide_eq_true, Z.leb_le, Z.eqb_eq.
  split; [intros [[? ?] ?]|intros (? & ? & ?)]; repeat split; try done; lia.
Qed.

(** X3 - [calculate_item_discount] fails exactly when an active, applicable
    buy-X-get-Y rule with [buy_quantity = 0] meets an item of non-negative
    quantity; the failure is [ZeroDivisionError]; in every other case the
    call returns an amount after one reading of the clock.  An inactive or
    inapplicable rule with a zero divisor does no harm. *)
Theorem calculate_item_discount_raises_iff
    (self : PricingEngine.t) (item : CartItem.t) (rule : DiscountRule.t)
    (customer : Customer.t) (clock : Clock) (n : nat) :
  ((∃ e, PricingEngine.calculate_item_discount self item rule customer clock n
         = Raise e) ↔
   DiscountRule.is_active rule clock n = Ok (true, S n) ∧
   PricingEngine._is_rule_applicable self item rule customer = true ∧
   DiscountRule.discount_type rule = BUY_X_GET_Y ∧
   DiscountRule.buy_quantity rule = 0%Z ∧
   (0 ≤ CartItem.quantity item)%Z) ∧
  (∀ e, PricingEngine.calculate_item_discount self item rule customer clock n
        = Raise e → e = ZeroDivisionError) ∧
  ((∃ d, PricingEngine.calculate_item_discount self item rule customer clock n
         = Ok (d, S n)) ∨
   PricingEngine.calculate_item_discount self item rule customer clock n
   = Raise ZeroDivisionError).
Proof.
  rewrite is_active_run.
  destruct (active_at (clock n) rule
            && PricingEngine._is_rule_applicable self item rule customer) eqn:E.
  - rewrite (calculate_item_discount_apply _ _ _ _ _ _ E).
    apply andb_true_iff in E as [Ha Hp]. rewrite Ha, Hp.
    pose proof (divides_by_zero_true item rule) as Hz.
    destruct (divides_by_zero item rule).
    + split; [|split; [by intros ? [= <-]|by right]].
      split; [intros _; split; [done|split; [done|by apply Hz]] | eauto].
    + split; [|split; [done|left; eauto]].
      split; [by intros [? ?]|].
      intros (_ & _ & H). apply Hz in H. done.
  - rewrite (calculate_item_discount_skip _ _ _ _ _ _ E).
    split; [|split; [done|left; eauto]].
    split; [by intros [? ?]|].
    intros (Ha & Hp & _). simplify_eq. rewrite Hp in E.
    destruct (active_at (clock n) rule); done.
Qed.

(** X4 - With a non-negative [max_discount], the amount returned by
    [calculate_item_discount] never exceeds the cap, whatever the other
    parameters of the rule and the item are. *)
Theorem calculate_item_discount_capped
    (self : PricingEngine.t) (item : CartItem.t) (rule : DiscountRule.t)
    (customer : Customer.t) (clock : Clock) (n n' : nat) (d : Q) :
  Qext_le 0 (DiscountRule.max_discount rule) →
  PricingEngine.calculate_item_discount self item rule customer clock n
  = Ok (d, n') →
  Qext_le d (DiscountRule.max_discount rule).
Proof.
  intros Hcap Hrun.
  destruct (active_at (clock n) rule
            && PricingEngine._is_rule_applicable self item rule customer) eqn:E.
  - rewrite (calculate_item_discount_apply _ _ _ _ _ _ E) in Hrun.
    destruct (divides_by_zero item rule); [done|]. simplify_eq.
    apply py_min_ext_le_r.
  - rewrite (calculate_item_discount_skip _ _ _ _ _ _ E) in Hrun.
    by simplify_eq.
Qed.

Lemma calculate_item_discount_capped_witness :
  Qext_le 0 (DiscountRule.max_discount flash_sale) ∧
  PricingEngine.calculate_item_discount PricingEngine.__init__
    (CartItem.mk (sample_product 1000000) 1) flash_sale
    (sample_customer BRONZE) still_clock 0%nat
  = Ok (py_min (1000000 * inject_Z 1 * (20 / 100)) 150000, 1%nat) ∧
  Qext_le (py_min (1000000 * inject_Z 1 * (20 / 100)) 150000)
          (DiscountRule.max_discount flash_sale).
Proof.
  assert (Qext_le 0 (DiscountRule.max_discount flash_sale)) as Hcap
    by (simpl; lra).
  split; [exact Hcap|]. split; [reflexivity|].
  exact (calculate_item_discount_capped PricingEngine.__init__
           (CartItem.mk (sample_product 1000000) 1) flash_sale
           (sample_customer BRONZE) still_clock 0%nat 1%nat _ Hcap eq_refl).
Defined.

(** ** Sums of amounts *)

Lemma Qsum_nonneg (xs : list Q) : Forall (λ x, 0 <= x) xs → 0 <= Qsum xs.
Proof.
  induction 1 as [|x xs Hx _ IH]; [simpl; lra|]. rewrite Qsum_cons. lra.
Qed.

Lemma Qsum_le (xs ys : list Q) : Forall2 Qle xs ys → Qsum xs <= Qsum ys.
Proof.
  induction 1 as [|x y xs ys Hxy _ IH]; [simpl; lra|]. rewrite !Qsum_cons. lra.
Qed.

(** ** The picks behind a report *)

Lemma combination_picks self cart customer clock n res n' :
  PricingEngine.calculate_best_discount_combination self cart customer clock n
  = Ok (res, n') →
  ∃ picks : list (Q * option DiscountRule.t),
    length picks = length cart ∧
    (∀ i item, cart !! i = Some item →
       ∃ bd br, picks !! i = Some (bd, br) ∧
         wins self customer clock (PricingEngine.discount_rules self) item
           (n + i * length (PricingEngine.discount_rules self))%nat bd br) ∧
    Forall consistent picks ∧
    res = fold_left record_pick (zip cart picks)
            (DiscountInfo.mk ∅ 0 [] (py_sum (map CartItem.subtotal cart))).
Proof.
  unfold PricingEngine.calculate_best_discount_combination. intros Hrun.
  apply item_loop_spec in Hrun as (_ & picks & Hlen & Hpicks & ->).
  exists picks. split; [done|]. split; [done|]. split; [|done].
  apply Forall_lookup. intros i [bd br] Hp.
  destruct (lookup_lt_is_Some_2 cart i) as [item Hi].
  { rewrite <- Hlen. by eapply lookup_lt_Some. }
  destruct (Hpicks i item Hi) as (bd' & br' & Hp' & Hw). simplify_eq.
  by eapply wins_consistent.
Qed.

Lemma consistent_zip (cart : list CartItem.t)
    (picks : list (Q * option DiscountRule.t)) :
  Forall consistent picks →
  Forall (λ pick : CartItem.t * (Q * option DiscountRule.t), consistent pick.2)
         (zip cart picks).
Proof.
  intros Hc. apply Forall_forall. intros [item p] (i & _ & Hp)%elem_of_zip_lookup.
  rewrite Forall_lookup in Hc. by eapply Hc.
Qed.

Lemma consistent_nonneg (pick : Q * option DiscountRule.t) :
  consistent pick → 0 <= pick.1.
Proof.
  destruct pick as [bd [w|]]; unfold consistent; simpl; [lra|by intros ->].
Qed.

(** X5 - Whatever the rules are (negative percentages or amounts
    included), [calculate_best_discount_combination] never reports a negative
    product discount, and every entry of the itemized report carries a
    positive discount: a rule that would raise a price is never selected. *)
Theorem best_discount_never_negative
    (rules : list DiscountRule.t) (cart : list CartItem.t)
    (customer : Customer.t) (clock : Clock) (n n' : nat) (res : DiscountInfo.t) :
  PricingEngine.calculate_best_discount_combination
    (engine rules) cart customer clock n = Ok (res, n') →
  0 <= DiscountInfo.total_discount res ∧
  ∀ k e, DiscountInfo.item_discounts res !! k = Some e →
         0 < ItemDiscount.discount_amount e.
Proof.
  intros (picks & Hlen & _ & Hc & ->)%combination_picks. split.
  - rewrite fold_record_total by by apply consistent_zip.
    simpl. rewrite snd_zip by lia.
    assert (0 <= Qsum picks.*1); [|lra].
    apply Qsum_nonneg, Forall_fmap. eapply Forall_impl; [exact Hc|].
    intros p. apply consistent_nonneg.
  - intros k e [Hl|(item & bd & w & Hin & _ & ->)]%fold_record_lookup_Some.
    { simpl in Hl. by rewrite lookup_empty in Hl. }
    apply elem_of_zip_lookup in Hin as (i & _ & Hp).
    rewrite Forall_lookup in Hc. apply (Hc i _ Hp).
Qed.

Lemma best_discount_never_negative_witness :
  ∃ res n',
    PricingEngine.calculate_best_discount_combination
      (engine [DiscountRule.default "-10%" PERCENTAGE (-10)])
      [CartItem.mk (sample_product 100000) 1] (sample_customer BRONZE)
      still_clock 0%nat = Ok (res, n') ∧
    0 <= DiscountInfo.total_discount res.
Proof.
  eexists _, _.
  assert (PricingEngine.calculate_best_discount_combination
            (engine [DiscountRule.default "-10%" PERCENTAGE (-10)])
            [CartItem.mk (sample_product 100000) 1] (sample_customer BRONZE)
            still_clock 0%nat = Ok _) as Hrun by (vm_compute; reflexivity).
  split; [exact Hrun|].
  exact (proj1 (best_discount_never_negative _ _ _ _ _ _ _ Hrun)).
Defined.

(** ** Empty inputs *)

(** X6 - An empty cart is priced without reading the clock and without
    failure, whatever the rules are: subtotal, discounts and tax are 0, the
    report is empty and the savings percentage is 0 (no division by the zero
    subtotal); but the base shipping fee of the first bracket is charged, so
    the total is 50,000. *)
Theorem empty_cart_price
    (rules : list DiscountRule.t) (customer : Customer.t)
    (apply_customer_discount : bool) (clock : Clock) (n : nat) :
  ∃ b, PricingEngine.calculate_final_price (engine rules) [] customer
         apply_customer_discount clock n = Ok (b, n) ∧
       PriceBreakdown.subtotal b = 0 ∧
       PriceBreakdown.product_discount b = 0 ∧
       PriceBreakdown.customer_tier_discount b == 0 ∧
       PriceBreakdown.tax_amount b == 0 ∧
       PriceBreakdown.shipping_fee b = 50000 ∧
       PriceBreakdown.total b == 50000 ∧
       PriceBreakdown.savings_percentage b = 0 ∧
       DiscountInfo.item_discounts (PriceBreakdown.discount_details b) = ∅ ∧
       DiscountInfo.applied_rules (PriceBreakdown.discount_details b) = [].
Proof.
  rewrite engine_eq. unfold PricingEngine.calculate_final_price.
  unfold mbind, M_bind, PricingEngine.calculate_best_discount_combination.
  cbn [PricingEngine.item_loop]. unfold mret, M_ret.
  eexists. split; [reflexivity|].
  cbn. change (PricingEngine.calculate_shipping_fee _ 0 0) with 50000.
  split; [done|]. split; [done|]. split.
  { destruct apply_customer_discount; [field|reflexivity]. }
  split; [destruct apply_customer_discount; field|].
  split; [done|]. split; [destruct apply_customer_discount; field|done].
Qed.

Lemma item_loop_no_rules self customer clock items :
  PricingEngine.discount_rules self = [] →
  ∀ results n,
    PricingEngine.item_loop self customer items results clock n = Ok (results, n).
Proof.
  intros Hrules. induction items as [|item rest IH]; intros results n; [done|].
  rewrite item_loop_cons, Hrules. simpl. apply IH.
Qed.

(** X7 - Without rules every cart is priced without reading the clock and
    without failure: there is no product discount, the report is empty, and
    the total is the subtotal, less the tier percentage when
    [apply_customer_discount] is set, plus 10% tax, plus the shipping fee. *)
Theorem no_rules_price
    (cart : list CartItem.t) (customer : Customer.t)
    (apply_customer_discount : bool) (clock : Clock) (n : nat) :
  ∃ b, PricingEngine.calculate_final_price (engine []) cart customer
         apply_customer_discount clock n = Ok (b, n) ∧
       PriceBreakdown.product_discount b = 0 ∧
       DiscountInfo.item_discounts (PriceBreakdown.discount_details b) = ∅ ∧
       DiscountInfo.applied_rules (PriceBreakdown.discount_details b) = [] ∧
       PriceBreakdown.total b
       == PriceBreakdown.subtotal b
          * (1 - (if apply_customer_discount
                  then Customer.get_tier_discount customer else 0) / 100)
          * (11 / 10)
          + PriceBreakdown.shipping_fee b.
Proof.
  unfold PricingEngine.calculate_final_price.
  unfold mbind, M_bind, PricingEngine.calculate_best_discount_combination.
  rewrite item_loop_no_rules by done.
  unfold mret, M_ret. eexists. split; [reflexivity|].
  cbn [PriceBreakdown.product_discount PriceBreakdown.discount_details
       PriceBreakdown.total PriceBreakdown.subtotal PriceBreakdown.shipping_fee
       DiscountInfo.item_discounts DiscountInfo.applied_rules
       DiscountInfo.total_discount].
  split; [done|]. split; [done|]. split; [done|].
  rewrite tax_rate_engine. destruct apply_customer_discount; field.
Qed.

(** ** Shipping fee on all inputs *)

Lemma bracket_loop_cases (subtotal : Q) :
  (PricingEngine.bracket_loop
     (PricingEngine.shipping_rates PricingEngine.__init__) subtotal 0 = 50000
   ∧ 0 <= subtotal ∧ subtotal < 200000) ∨
  (PricingEngine.bracket_loop
     (PricingEngine.shipping_rates PricingEngine.__init__) subtotal 0 = 30000
   ∧ 200000 <= subtotal ∧ subtotal < 500000) ∨
  (PricingEngine.bracket_loop
     (PricingEngine.shipping_rates PricingEngine.__init__) subtotal 0 = 0
   ∧ (subtotal < 0 ∨ 500000 <= subtotal)).
Proof.
  destruct (Qlt_le_dec subtotal 0) as [Hneg|Hpos].
  - right. right. split; [|by left]. simpl.
    assert (Qle_bool 0 subtotal = false) as -> by (apply Qle_bool_false; lra).
    assert (Qle_bool 200000 subtotal = false) as -> by (apply Qle_bool_false; lra).
    assert (Qle_bool 500000 subtotal = false) as -> by (apply Qle_bool_false; lra).
    done.
  - destruct (bracket_loop_init subtotal Hpos) as (B1 & B2 & B3).
    destruct (Qlt_le_dec subtotal 200000) as [H1|H1]; [left; auto|].
    destruct (Qlt_le_dec subtotal 500000) as [H2|H2]; [right; left; auto|].
    right. right. auto.
Qed.

Lemma calculate_shipping_fee_eq (rules : list DiscountRule.t) (subtotal weight : Q) :
  PricingEngine.calculate_shipping_fee (engine rules) subtotal weight
  = if Qltb 5 weight
    then PricingEngine.bracket_loop
           (PricingEngine.shipping_rates PricingEngine.__init__) subtotal 0
         + (weight - 5) * 10000
    else PricingEngine.bracket_loop
           (PricingEngine.shipping_rates PricingEngine.__init__) subtotal 0.
Proof. by rewrite engine_eq. Qed.

Lemma calculate_shipping_fee_nonneg (rules : list DiscountRule.t) (subtotal weight : Q) :
  0 <= PricingEngine.calculate_shipping_fee (engine rules) subtotal weight.
Proof.
  rewrite calculate_shipping_fee_eq.
  destruct (Qltb 5 weight) eqn:Hw;
    [apply Qltb_true in Hw|apply Qltb_false in Hw];
    destruct (bracket_loop_cases subtotal) as [(-> & _)|[(-> & _)|(-> & _)]]; nra.
Qed.

(** X8 - The shipping fee is never negative, on any input; a heavier parcel
    never ships cheaper; from subtotal 0 on, a larger subtotal never ships
    dearer; and a negative subtotal falls outside every bracket, so only the
    weight surcharge is charged. *)
Theorem calculate_shipping_fee_monotone
    (rules : list DiscountRule.t) (subtotal weight : Q) :
  0 <= PricingEngine.calculate_shipping_fee (engine rules) subtotal weight ∧
  (∀ weight', weight <= weight' →
     PricingEngine.calculate_shipping_fee (engine rules) subtotal weight
     <= PricingEngine.calculate_shipping_fee (engine rules) subtotal weight') ∧
  (∀ subtotal', 0 <= subtotal → subtotal <= subtotal' →
     PricingEngine.calculate_shipping_fee (engine rules) subtotal' weight
     <= PricingEngine.calculate_shipping_fee (engine rules) subtotal weight) ∧
  (subtotal < 0 →
   (weight <= 5 →
    PricingEngine.calculate_shipping_fee (engine rules) subtotal weight = 0) ∧
   (5 < weight →
    PricingEngine.calculate_shipping_fee (engine rules) subtotal weight
    == (weight - 5) * 10000)).
Proof.
  split; [apply calculate_shipping_fee_nonneg|]. split; [|split].
  - intros weight' Hw. rewrite !calculate_shipping_fee_eq.
    destruct (Qltb 5 weight) eqn:H1;
      [apply Qltb_true in H1|apply Qltb_false in H1];
      (destruct (Qltb 5 weight') eqn:H2;
       [apply Qltb_true in H2|apply Qltb_false in H2]); nra.
  - intros subtotal' H0 Hs. rewrite !calculate_shipping_fee_eq.
    assert (PricingEngine.bracket_loop
              (PricingEngine.shipping_rates PricingEngine.__init__) subtotal' 0
            <= PricingEngine.bracket_loop
                 (PricingEngine.shipping_rates PricingEngine.__init__) subtotal 0).
    { destruct (bracket_loop_cases subtotal) as [(-> & ?)|[(-> & ?)|(-> & ?)]];
        destruct (bracket_loop_cases subtotal') as [(-> & ?)|[(-> & ?)|(-> & ?)]];
        lra. }
    destruct (Qltb 5 weight); lra.
  - intros Hneg. rewrite calculate_shipping_fee_eq.
    destruct (bracket_loop_cases subtotal)
      as [(_ & ? & _)|[(_ & ? & _)|(-> & _)]]; [lra|lra|].
    split; intros Hw.
    + apply Qltb_false in Hw. by rewrite Hw.
    + apply Qltb_true in Hw. rewrite Hw. ring.
Qed.

Lemma calculate_shipping_fee_monotone_witness :
  (7 <= 9 ∧
   PricingEngine.calculate_shipping_fee (engine []) 100000 7
   <= PricingEngine.calculate_shipping_fee (engine []) 100000 9) ∧
  (0 <= 100000 ∧ 100000 <= 300000 ∧
   PricingEngine.calculate_shipping_fee (engine []) 300000 7
   <= PricingEngine.calculate_shipping_fee (engine []) 100000 7) ∧
  (-1 < 0 ∧ 3 <= 5 ∧
   PricingEngine.calculate_shipping_fee (engine []) (-1) 3 = 0).
Proof.
  assert (7 <= 9) as H1 by lra.
  assert (0 <= 100000) as H2 by lra.
  assert (100000 <= 300000) as H3 by lra.
  assert (-1 < 0) as H4 by lra.
  assert (3 <= 5) as H5 by lra.
  split; [split; [exact H1|]|split; [split; [exact H2|split; [exact H3|]]|
                                     split; [exact H4|split; [exact H5|]]]].
  - exact (proj1 (proj2 (calculate_shipping_fee_monotone [] 100000 7)) 9 H1).
  - exact (proj1 (proj2 (proj2 (calculate_shipping_fee_monotone [] 100000 7)))
             300000 H2 H3).
  - exact (proj1 (proj2 (proj2 (proj2 (calculate_shipping_fee_monotone [] (-1) 3)))
                    H4) H5).
Defined.

(** ** Bounds of the breakdown on well-formed inputs *)

Lemma calculate_item_discount_in_range self item rule customer clock n d n' :
  well_formed_item item → well_formed_rule rule →
  PricingEngine.calculate_item_discount self item rule customer clock n
  = Ok (d, n') →
  0 <= d ∧ d <= CartItem.subtotal item.
Proof.
  intros Hitem Hrule Hrun. pose proof (subtotal_nonneg item Hitem) as Hs.
  destruct (active_at (clock n) rule
            && PricingEngine._is_rule_applicable self item rule customer) eqn:E.
  - rewrite (calculate_item_discount_apply _ _ _ _ _ _ E) in Hrun.
    destruct (divides_by_zero item rule); [done|]. simplify_eq.
    destruct (uncapped_bounds item rule Hitem Hrule) as [Hu0 Hu1]. split.
    + apply py_min_ext_nonneg; [done|apply Hrule].
    + pose proof (py_min_ext_le_l (uncapped item rule)
                    (DiscountRule.max_discount rule)). lra.
  - rewrite (calculate_item_discount_skip _ _ _ _ _ _ E) in Hrun.
    simplify_eq. split; [lra|done].
Qed.

Lemma well_formed_safe (rule : DiscountRule.t) :
  well_formed_rule rule → safe_rule rule.
Proof.
  intros [_ H]. apply safe_rule_positive. intros Ht. rewrite Ht in H. tauto.
Qed.

Lemma wins_in_range self customer clock rules item n bd br :
  well_formed_item item → Forall well_formed_rule rules →
  wins self customer clock rules item n bd br →
  0 <= bd ∧ bd <= CartItem.subtotal item.
Proof.
  intros Hitem Hrules [_ Hw]. destruct br as [w|].
  - destruct Hw as (j & Hj & Hrun & _).
    eapply calculate_item_discount_in_range; [done| |exact Hrun].
    rewrite Forall_lookup in Hrules. by eapply Hrules.
  - subst bd. split; [lra|by apply subtotal_nonneg].
Qed.

Lemma combination_in_range rules cart customer clock n res n' :
  Forall well_formed_item cart → Forall well_formed_rule rules →
  PricingEngine.calculate_best_discount_combination
    (engine rules) cart customer clock n = Ok (res, n') →
  0 <= DiscountInfo.total_discount res ∧
  DiscountInfo.total_discount res <= py_sum (map CartItem.subtotal cart).
Proof.
  intros Hcart Hrules (picks & Hlen & Hpicks & Hc & ->)%combination_picks.
  rewrite discount_rules_engine in Hpicks.
  rewrite fold_record_total by by apply consistent_zip.
  simpl. rewrite snd_zip by lia. rewrite py_sum_Qsum.
  assert (Forall2 (λ (p : Q * option DiscountRule.t) item,
                     0 <= p.1 ∧ p.1 <= CartItem.subtotal item) picks cart) as H2.
  { apply Forall2_same_length_lookup. split; [done|].
    intros i [bd br] item Hp Hi.
    destruct (Hpicks i item Hi) as (bd' & br' & Hp' & Hw). simplify_eq.
    eapply wins_in_range; [|done|exact Hw].
    rewrite Forall_lookup in Hcart. by eapply Hcart. }
  split.
  - assert (0 <= Qsum picks.*1); [|lra]. apply Qsum_nonneg, Forall_fmap.
    eapply Forall2_Forall_l; [exact H2|]. apply Forall_true.
    by intros item p [? _].
  - assert (Qsum picks.*1 <= Qsum (map CartItem.subtotal cart)); [|lra].
    apply Qsum_le. apply Forall2_fmap.
    eapply Forall2_impl; [exact H2|]. by intros p item [_ ?].
Qed.

(** X9 - For a cart of items with non-negative prices and quantities and
    rules with parameters in range, [calculate_final_price] returns a
    breakdown in which the product discount lies between 0 and the subtotal,
    the customer discount between 0 and the discounted subtotal, the tax and
    the shipping fee are not negative, the total is at least the shipping
    fee, and the savings percentage lies between 0 and 100. *)
Theorem well_formed_price_bounds
    (rules : list DiscountRule.t) (cart : list CartItem.t)
    (customer : Customer.t) (apply_customer_discount : bool)
    (clock : Clock) (n : nat) :
  Forall well_formed_item cart →
  Forall well_formed_rule rules →
  ∃ b, PricingEngine.calculate_final_price (engine rules) cart customer
         apply_customer_discount clock n
       = Ok (b, (n + length cart * length rules)%nat) ∧
       0 <= PriceBreakdown.product_discount b ∧
       PriceBreakdown.product_discount b <= PriceBreakdown.subtotal b ∧
       0 <= PriceBreakdown.customer_tier_discount b ∧
       PriceBreakdown.customer_tier_discount b
       <= PriceBreakdown.subtotal b - PriceBreakdown.product_discount b ∧
       0 <= PriceBreakdown.tax_amount b ∧
       0 <= PriceBreakdown.shipping_fee b ∧
       PriceBreakdown.shipping_fee b <= PriceBreakdown.total b ∧
       0 <= PriceBreakdown.savings_percentage b ∧
       PriceBreakdown.savings_percentage b <= 100.
Proof.
  intros Hcart Hrules.
  assert (Forall safe_rule (PricingEngine.discount_rules (engine rules))) as Hsafe.
  { rewrite discount_rules_engine. eapply Forall_impl; [exact Hrules|].
    apply well_formed_safe. }
  destruct (item_loop_total (engine rules) customer clock cart Hsafe
              (DiscountInfo.mk ∅ 0 [] (py_sum (map CartItem.subtotal cart))) n)
    as [info Hinfo].
  rewrite discount_rules_engine in Hinfo.
  destruct (combination_in_range rules cart customer clock n info _
              Hcart Hrules Hinfo) as [Hpd0 Hpd1].
  unfold PricingEngine.calculate_final_price.
  unfold mbind, M_bind, PricingEngine.calculate_best_discount_combination.
  rewrite Hinfo. unfold mret, M_ret. eexists. split; [reflexivity|].
  cbn [PriceBreakdown.subtotal PriceBreakdown.product_discount
       PriceBreakdown.customer_tier_discount PriceBreakdown.tax_amount
       PriceBreakdown.shipping_fee PriceBreakdown.total
       PriceBreakdown.savings_percentage].
  rewrite tax_rate_engine.
  pose proof (calculate_shipping_fee_nonneg rules
                (py_sum (map CartItem.subtotal cart)) (cart_weight cart)) as Hship.
  fold (cart_weight cart).
  set (ship := PricingEngine.calculate_shipping_fee _ _ _) in *.
  set (s := py_sum (map CartItem.subtotal cart)) in *.
  set (pd := DiscountInfo.total_discount info) in *.
  set (cd := if apply_customer_discount
             then (s - pd) * (Customer.get_tier_discount customer / 100)
             else 0).
  assert (0 <= cd ∧ cd <= s - pd) as [Hcd0 Hcd1].
  { subst cd. destruct apply_customer_discount; [|lra].
    assert ((s - pd) * (Customer.get_tier_discount customer / 100)
            == (s - pd) * Customer.get_tier_discount customer * (1 # 100)) as ->
      by field.
    assert (0 <= Customer.get_tier_discount customer
            ∧ Customer.get_tier_discount customer <= 20) as [? ?].
    { unfold Customer.get_tier_discount. destruct (Customer.tier _); lra. }
    split; nra. }
  split; [done|]. split; [done|]. split; [done|]. split; [done|].
  split; [nra|]. split; [done|]. split; [nra|].
  destruct (Qltb 0 s) eqn:Hs; [|lra]. apply Qltb_true in Hs. split.
  - apply Qmult_le_0_compat; [|lra]. apply Qle_shift_div_l; [done|lra].
  - assert ((pd + cd) / s <= 1); [|lra]. apply Qle_shift_div_r; [done|lra].
Qed.

Lemma well_formed_price_bounds_witness :
  Forall well_formed_item [CartItem.mk (sample_product 1000000) 1] ∧
  Forall well_formed_rule [flash_sale; buy2_get1] ∧
  ∃ b, PricingEngine.calculate_final_price (engine [flash_sale; buy2_get1])
         [CartItem.mk (sample_product 1000000) 1] (sample_customer GOLD) true
         still_clock 0%nat = Ok (b, 2%nat) ∧
       PriceBreakdown.product_discount b <= PriceBreakdown.subtotal b ∧
       PriceBreakdown.savings_percentage b <= 100.
Proof.
  assert (Forall well_formed_item [CartItem.mk (sample_product 1000000) 1])
    as Hcart by (repeat constructor; simpl; [lra|lia]).
  assert (Forall well_formed_rule [flash_sale; buy2_get1]) as Hrules.
  { repeat constructor; simpl; try lra; lia. }
  split; [exact Hcart|]. split; [exact Hrules|].
  destruct (well_formed_price_bounds [flash_sale; buy2_get1]
              [CartItem.mk (sample_product 1000000) 1] (sample_customer GOLD)
              true still_clock 0%nat Hcart Hrules)
    as (b & Hb & _ & Hpd & _ & _ & _ & _ & _ & _ & Hsav).
  exists b. split; [exact Hb|]. split; [exact Hpd|exact Hsav].
Defined.

(** ** Switching the customer discount off *)

(** X10 - Calling [calculate_final_price] with [apply_customer_discount]
    false instead of true changes neither the subtotal, nor the product
    discount, nor the shipping fee; the customer discount becomes 0; and the
    total does not get smaller, provided the product discount does not
    exceed the subtotal. *)
Theorem customer_discount_flag
    (rules : list DiscountRule.t) (cart : list CartItem.t)
    (customer : Customer.t) (clock : Clock) (n n' : nat)
    (b_on : PriceBreakdown.t) :
  PricingEngine.calculate_final_price (engine rules) cart customer true clock n
  = Ok (b_on, n') →
  ∃ b_off,
    PricingEngine.calculate_final_price (engine rules) cart customer false clock n
    = Ok (b_off, n') ∧
    PriceBreakdown.customer_tier_discount b_off = 0 ∧
    PriceBreakdown.subtotal b_off = PriceBreakdown.subtotal b_on ∧
    PriceBreakdown.product_discount b_off = PriceBreakdown.product_discount b_on ∧
    PriceBreakdown.shipping_fee b_off = PriceBreakdown.shipping_fee b_on ∧
    (PriceBreakdown.product_discount b_on <= PriceBreakdown.subtotal b_on →
     PriceBreakdown.total b_on <= PriceBreakdown.total b_off).
Proof.
  unfold PricingEngine.calculate_final_price.
  unfold mbind, M_bind.
  destruct (PricingEngine.calculate_best_discount_combination _ _ _ _ _)
    as [[info n1]|e]; [|done].
  unfold mret, M_ret. intros [= <- <-]. eexists. split; [reflexivity|].
  cbn [PriceBreakdown.subtotal PriceBreakdown.product_discount
       PriceBreakdown.customer_tier_discount PriceBreakdown.shipping_fee
       PriceBreakdown.total].
  split; [done|]. split; [done|]. split; [done|]. split; [done|].
  intros Hpd. rewrite tax_rate_engine.
  pose proof (get_tier_discount_nonneg customer) as Hp.
  set (s := py_sum _) in *. set (pd := DiscountInfo.total_discount info) in *.
  set (ship := PricingEngine.calculate_shipping_fee _ _ _).
  set (p := Customer.get_tier_discount customer) in *.
  assert ((s - pd) * (p / 100) == (s - pd) * p * (1 # 100)) as -> by field.
  nra.
Qed.

Lemma customer_discount_flag_witness :
  ∃ b_on b_off n',
    PricingEngine.calculate_final_price (engine [flash_sale])
      [CartItem.mk (sample_product 1000000) 1] (sample_customer VIP) true
      still_clock 0%nat = Ok (b_on, n') ∧
    PricingEngine.calculate_final_price (engine [flash_sale])
      [CartItem.mk (sample_product 1000000) 1] (sample_customer VIP) false
      still_clock 0%nat = Ok (b_off, n') ∧
    PriceBreakdown.customer_tier_discount b_off = 0.
Proof.
  destruct (PricingEngine.calculate_final_price (engine [flash_sale])
              [CartItem.mk (sample_product 1000000) 1] (sample_customer VIP) true
              still_clock 0%nat)
    as [[b_on n']|e] eqn:Hrun; [|vm_compute in Hrun; discriminate].
  destruct (customer_discount_flag [flash_sale]
              [CartItem.mk (sample_product 1000000) 1] (sample_customer VIP)
              still_clock 0%nat n' b_on Hrun) as (b_off & Hoff & Hcd & _).
  exists b_on, b_off, n'. split; [reflexivity|]. split; [exact Hoff|exact Hcd].
Defined.

(** ** Adding a rule *)

Lemma add_discount_rule_engine (rules : list DiscountRule.t) (rule : DiscountRule.t) :
  PricingEngine.add_discount_rule (engine rules) rule = engine (rules ++ [rule]).
Proof. by rewrite !engine_eq. Qed.

(** The amount a rule yields depends on the clock only through the reading
    it makes, and not on the engine. *)
Lemma calculate_item_discount_same_reading
    self self' item rule customer clock n m d d' n1 m1 :
  clock n = clock m →
  PricingEngine.calculate_item_discount self item rule customer clock n = Ok (d, n1) →
  PricingEngine.calculate_item_discount self' item rule customer clock m = Ok (d', m1) →
  d = d'.
Proof.
  intros Hclock Hn Hm.
  change (PricingEngine.calculate_item_discount self' item rule customer clock m)
    with (PricingEngine.calculate_item_discount self item rule customer clock m) in Hm.
  destruct (active_at (clock n) rule
            && PricingEngine._is_rule_applicable self item rule customer) eqn:E.
  - rewrite (calculate_item_discount_apply _ _ _ _ _ _ E) in Hn.
    rewrite Hclock in E.
    rewrite (calculate_item_discount_apply _ _ _ _ _ _ E) in Hm.
    destruct (divides_by_zero item rule); congruence.
  - rewrite (calculate_item_discount_skip _ _ _ _ _ _ E) in Hn.
    rewrite Hclock in E.
    rewrite (calculate_item_discount_skip _ _ _ _ _ _ E) in Hm.
    congruence.
Qed.

Lemma wins_more_rules self self' customer clock rules rule item n m bd br bd' br' :
  (∀ i j, clock i = clock j) →
  wins self customer clock rules item n bd br →
  wins self' customer clock (rules ++ [rule]) item m bd' br' →
  bd <= bd'.
Proof.
  intros Hclock [_ Hw] Hw'. destruct br as [w|].
  - destruct Hw as (j & Hj & Hrun & _). destruct Hw' as [Hall _].
    destruct (Hall j w) as (d & Hd & Hle).
    { by apply lookup_app_l_Some. }
    by rewrite (calculate_item_discount_same_reading _ _ _ _ _ _ _ _ _ _ _ _
                  (Hclock _ _) Hrun Hd).
  - subst bd. apply wins_consistent in Hw'.
    by apply consistent_nonneg in Hw'.
Qed.

(** X11 - When the clock does not advance during the two calls, adding a
    rule with [add_discount_rule] never lowers the product discount of a
    cart and never raises its total. *)
Theorem add_discount_rule_never_raises_total
    (rules : list DiscountRule.t) (rule : DiscountRule.t)
    (cart : list CartItem.t) (customer : Customer.t)
    (apply_customer_discount : bool) (clock : Clock) (n n1 n2 : nat)
    (b b' : PriceBreakdown.t) :
  (∀ i j, clock i = clock j) →
  PricingEngine.calculate_final_price (engine rules) cart customer
    apply_customer_discount clock n = Ok (b, n1) →
  PricingEngine.calculate_final_price
    (PricingEngine.add_discount_rule (engine rules) rule) cart customer
    apply_customer_discount clock n = Ok (b', n2) →
  PriceBreakdown.product_discount b <= PriceBreakdown.product_discount b' ∧
  PriceBreakdown.total b' <= PriceBreakdown.total b.
Proof.
  intros Hclock. rewrite add_discount_rule_engine.
  unfold PricingEngine.calculate_final_price. unfold mbind, M_bind.
  destruct (PricingEngine.calculate_best_discount_combination (engine rules) _ _ _ _)
    as [[info m1]|e] eqn:Hinfo; [|done].
  destruct (PricingEngine.calculate_best_discount_combination
              (engine (rules ++ [rule])) _ _ _ _)
    as [[info' m2]|e] eqn:Hinfo'; [|done].
  unfold mret, M_ret. intros [= <- <-] [= <- <-].
  cbn [PriceBreakdown.product_discount PriceBreakdown.total].
  assert (DiscountInfo.total_discount info <= DiscountInfo.total_discount info')
    as Hpd.
  { apply combination_picks in Hinfo as (picks & Hlen & Hpicks & Hc & ->).
    apply combination_picks in Hinfo' as (picks' & Hlen' & Hpicks' & Hc' & ->).
    rewrite !fold_record_total by by apply consistent_zip.
    simpl. rewrite !snd_zip by lia.
    assert (Qsum picks.*1 <= Qsum picks'.*1); [|lra].
    apply Qsum_le, Forall2_fmap, Forall2_same_length_lookup.
    split; [lia|]. intros i [bd br] [bd' br'] Hp Hp'.
    destruct (lookup_lt_is_Some_2 cart i) as [item Hi].
    { rewrite <- Hlen. by eapply lookup_lt_Some. }
    destruct (Hpicks i item Hi) as (? & ? & ? & Hw).
    destruct (Hpicks' i item Hi) as (? & ? & ? & Hw'). simplify_eq.
    rewrite !discount_rules_engine in *. simpl.
    by eapply wins_more_rules. }
  split; [done|]. rewrite !tax_rate_engine.
  rewrite !calculate_shipping_fee_eq.
  pose proof (get_tier_discount_nonneg customer) as Hp0.
  assert (Customer.get_tier_discount customer <= 20) as Hp1.
  { unfold Customer.get_tier_discount. destruct (Customer.tier _); lra. }
  set (s := py_sum _) in *.
  set (pd := DiscountInfo.total_discount info) in *.
  set (pd' := DiscountInfo.total_discount info') in *.
  set (ship := if Qltb 5 _ then _ else _).
  set (p := Customer.get_tier_discount customer) in *.
  destruct apply_customer_discount; [|lra].
  assert (∀ x, s - x - (s - x) * (p / 100)
               + (s - x - (s - x) * (p / 100)) * (1 # 10) + ship
               == (s - x) * (100 - p) * (11 # 1000) + ship) as Heq
    by (intros x; field).
  rewrite !Heq. nra.
Qed.

Lemma add_discount_rule_never_raises_total_witness :
  (∀ i j, still_clock i = still_clock j) ∧
  ∃ b b' n1 n2,
    PricingEngine.calculate_final_price (engine [buy2_get1])
      [CartItem.mk (sample_product 1000000) 2] (sample_customer GOLD) true
      still_clock 0%nat = Ok (b, n1) ∧
    PricingEngine.calculate_final_price
      (PricingEngine.add_discount_rule (engine [buy2_get1]) flash_sale)
      [CartItem.mk (sample_product 1000000) 2] (sample_customer GOLD) true
      still_clock 0%nat = Ok (b', n2) ∧
    PriceBreakdown.product_discount b <= PriceBreakdown.product_discount b' ∧
    PriceBreakdown.total b' <= PriceBreakdown.total b.
Proof.
  assert (∀ i j, still_clock i = still_clock j) as Hclock by reflexivity.
  split; [exact Hclock|].
  destruct (PricingEngine.calculate_final_price (engine [buy2_get1])
              [CartItem.mk (sample_product 1000000) 2] (sample_customer GOLD) true
              still_clock 0%nat)
    as [[b n1]|e] eqn:H1; [|vm_compute in H1; discriminate].
  destruct (PricingEngine.calculate_final_price
              (PricingEngine.add_discount_rule (engine [buy2_get1]) flash_sale)
              [CartItem.mk (sample_product 1000000) 2] (sample_customer GOLD) true
              still_clock 0%nat)
    as [[b' n2]|e] eqn:H2; [|vm_compute in H2; discriminate].
  exists b, b', n1, n2. split; [reflexivity|]. split; [reflexivity|].
  exact (add_discount_rule_never_raises_total [buy2_get1] flash_sale
           [CartItem.mk (sample_product 1000000) 2] (sample_customer GOLD) true
           still_clock 0%nat n1 n2 b b' Hclock H1 H2).
Defined.

(** ** Dynamic pricing *)

Lemma py_max_cases (a b : Q) :
  (a < b ∧ py_max a b = b) ∨ (b <= a ∧ py_max a b = a).
Proof.
  unfold py_max. destruct (Qltb a b) eqn:E.
  - left. by apply Qltb_true in E.
  - right. by apply Qltb_false in E.
Qed.

(** X12 - [dynamic_pricing] never returns less than
    [base_price * (1 + target_margin)].  With the default margin of 0.3, a
    non-negative base price and a demand factor of at most 1.9, the result is
    exactly that floor, [1.3 * base_price], whatever the competitor's price
    and the inventory level are: the three adjustments cannot reach it. *)
Theorem dynamic_pricing_margin_floor
    (base_price demand_factor competitor_price : Q) (inventory_level : Z)
    (target_margin : Q) :
  base_price * (1 + target_margin)
  <= AdvancedPricingAlgorithms.dynamic_pricing base_price demand_factor
       competitor_price inventory_level target_margin ∧
  (0 <= base_price → demand_factor <= 19 / 10 →
   AdvancedPricingAlgorithms.dynamic_pricing base_price demand_factor
     competitor_price inventory_level
     AdvancedPricingAlgorithms.default_target_margin
   == base_price * (13 / 10)).
Proof.
  unfold AdvancedPricingAlgorithms.dynamic_pricing. split.
  - match goal with |- _ <= py_max ?a ?b =>
      destruct (py_max_cases a b) as [[? ->]|[? ->]] end; lra.
  - intros Hbase Hdemand.
    unfold AdvancedPricingAlgorithms.default_target_margin.
    assert (19 / 10 == 19 # 10) as E19 by reflexivity. rewrite E19 in Hdemand.
    assert (13 / 10 == 13 # 10) as -> by reflexivity.
    set (da := 1 + (demand_factor - 1) * (2 # 10)).
    assert (da <= 118 # 100) as Hda by (subst da; lra).
    assert (base_price * da <= base_price * (118 # 100)) as Hbd by nra.
    set (c := if Qltb competitor_price base_price then 95 # 100 else 1).
    assert (0 < c ∧ c <= 1) as [Hc0 Hc1].
    { subst c. destruct (Qltb _ _); lra. }
    set (i := if (inventory_level <? 10)%Z then 11 # 10
              else if (100 <? inventory_level)%Z then 9 # 10 else 1).
    assert (0 < i ∧ i <= 11 # 10) as [Hi0 Hi1].
    { subst i. destruct (_ <? 10)%Z; [lra|]. destruct (100 <? _)%Z; lra. }
    assert (base_price * da * c * i <= base_price * (1 + (3 # 10))) as Hle.
    { assert (base_price * da * c <= base_price * (118 # 100)) by nra.
      assert (0 <= base_price * (118 # 100)) by nra.
      assert (base_price * da * c * i <= base_price * (118 # 100) * (11 # 10))
        by nra.
      nra. }
    match goal with |- py_max ?a ?b == _ =>
      destruct (py_max_cases a b) as [[? ->]|[? ->]] end; lra.
Qed.

Lemma dynamic_pricing_margin_floor_witness :
  0 <= 32990000 ∧ 15 / 10 <= 19 / 10 ∧
  AdvancedPricingAlgorithms.dynamic_pricing 32990000 (15 / 10) 30000000 5
    AdvancedPricingAlgorithms.default_target_margin
  == 32990000 * (13 / 10).
Proof.
  assert (0 <= 32990000) as H1 by lra.
  assert (15 / 10 <= 19 / 10) as H2 by (unfold Qle; simpl; lia).
  split; [exact H1|]. split; [exact H2|].
  exact (proj2 (dynamic_pricing_margin_floor 32990000 (15 / 10) 30000000 5
                  AdvancedPricingAlgorithms.default_target_margin) H1 H2).
Defined.

(** X13 - For a non-negative base price, [dynamic_pricing] never decreases
    when the demand factor increases, all other arguments being equal. *)
Theorem dynamic_pricing_demand_monotone
    (base_price demand_factor demand_factor' competitor_price : Q)
    (inventory_level : Z) (target_margin : Q) :
  0 <= base_price →
  demand_factor <= demand_factor' →
  AdvancedPricingAlgorithms.dynamic_pricing base_price demand_factor
    competitor_price inventory_level target_margin
  <= AdvancedPricingAlgorithms.dynamic_pricing base_price demand_factor'
       competitor_price inventory_level target_margin.
Proof.
  intros Hbase Hdemand. unfold AdvancedPricingAlgorithms.dynamic_pricing.
  set (c := if Qltb competitor_price base_price then 95 # 100 else 1).
  assert (0 < c) as Hc by (subst c; destruct (Qltb _ _); lra).
  set (i := if (inventory_level <? 10)%Z then 11 # 10
            else if (100 <? inventory_level)%Z then 9 # 10 else 1).
  assert (0 < i) as Hi.
  { subst i. destruct (_ <? 10)%Z; [lra|]. destruct (100 <? _)%Z; lra. }
  set (da := 1 + (demand_factor - 1) * (2 # 10)).
  set (da' := 1 + (demand_factor' - 1) * (2 # 10)).
  assert (da <= da') as Hda by (subst da da'; lra).
  assert (base_price * da * c * i <= base_price * da' * c * i) as Hle.
  { assert (base_price * da <= base_price * da') by nra.
    assert (base_price * da * c <= base_price * da' * c) by nra.
    nra. }
  match goal with |- py_max ?a ?b <= py_max ?a' ?b =>
    destruct (py_max_cases a b) as [[? ->]|[? ->]];
    destruct (py_max_cases a' b) as [[? ->]|[? ->]] end; lra.
Qed.

Lemma dynamic_pricing_demand_monotone_witness :
  0 <= 1000 ∧ 2 <= 3 ∧
  AdvancedPricingAlgorithms.dynamic_pricing 1000 2 900 5 (3 # 10)
  <= AdvancedPricingAlgorithms.dynamic_pricing 1000 3 900 5 (3 # 10).
Proof.
  assert (0 <= 1000) as H1 by lra. assert (2 <= 3) as H2 by lra.
  split; [exact H1|]. split; [exact H2|].
  exact (dynamic_pricing_demand_monotone 1000 2 3 900 5 (3 # 10) H1 H2).
Defined.

(** ** Bundle pricing *)

Lemma Qsum_app (xs ys : list Q) : Qsum (xs ++ ys) == Qsum xs + Qsum ys.
Proof.
  induction xs as [|x xs IH]; [simpl; ring|].
  rewrite <- app_comm_cons, !Qsum_cons, IH. ring.
Qed.

Lemma py_sum_app (xs ys : list Q) : py_sum (xs ++ ys) == py_sum xs + py_sum ys.
Proof. rewrite !py_sum_Qsum. apply Qsum_app. Qed.

Lemma py_sum_nonneg (xs : list Q) : Forall (λ x, 0 <= x) xs → 0 <= py_sum xs.
Proof. intros H. rewrite py_sum_Qsum. by apply Qsum_nonneg. Qed.

(** X14 - In the result of [optimal_bundle_pricing] the bundle price and
    the savings add up to the individual total, the savings are the total
    times the discount, and the names are listed in the order of the
    products.  With non-negative prices and a discount between 0 and 1 the
    bundle price lies between 0 and the individual total. *)
Theorem optimal_bundle_pricing_accounts
    (products : list Product.t) (bundle_discount : Q) :
  let r := AdvancedPricingAlgorithms.optimal_bundle_pricing products bundle_discount in
  BundleInfo.bundle_price r + BundleInfo.savings r == BundleInfo.individual_total r ∧
  BundleInfo.savings r == BundleInfo.individual_total r * bundle_discount ∧
  BundleInfo.products r = map Product.name products ∧
  (Forall (λ p, 0 <= Product.price p) products →
   0 <= bundle_discount → bundle_discount <= 1 →
   0 <= BundleInfo.bundle_price r ∧
   BundleInfo.bundle_price r <= BundleInfo.individual_total r ∧
   0 <= BundleInfo.savings r).
Proof.
  simpl. split; [ring|]. split; [ring|]. split; [done|].
  intros Hprices Hd0 Hd1.
  assert (0 <= py_sum (map Product.price products)) as Hs.
  { apply py_sum_nonneg, Forall_fmap. exact Hprices. }
  set (s := py_sum _) in *. repeat split; nra.
Qed.

Lemma optimal_bundle_pricing_accounts_witness :
  Forall (λ p, 0 <= Product.price p) [sample_product 100; sample_product 300] ∧
  0 <= 15 # 100 ∧ 15 # 100 <= 1 ∧
  BundleInfo.bundle_price
    (AdvancedPricingAlgorithms.optimal_bundle_pricing
       [sample_product 100; sample_product 300] (15 # 100))
  <= BundleInfo.individual_total
       (AdvancedPricingAlgorithms.optimal_bundle_pricing
          [sample_product 100; sample_product 300] (15 # 100)).
Proof.
  assert (Forall (λ p, 0 <= Product.price p)
            [sample_product 100; sample_product 300]) as H1
    by (repeat constructor; simpl; lra).
  assert (0 <= 15 # 100) as H2 by lra. assert (15 # 100 <= 1) as H3 by lra.
  split; [exact H1|]. split; [exact H2|]. split; [exact H3|].
  exact (proj1 (proj2 (proj2 (proj2 (proj2
           (optimal_bundle_pricing_accounts
              [sample_product 100; sample_product 300] (15 # 100)))) H1 H2 H3))).
Defined.

(** X15 - Bundle pricing is additive: at the same discount, the price of
    two bundles put together is the sum of their prices, and so are the
    savings; the empty bundle costs and saves nothing. *)
Theorem optimal_bundle_pricing_additive
    (products products' : list Product.t) (bundle_discount : Q) :
  BundleInfo.bundle_price
    (AdvancedPricingAlgorithms.optimal_bundle_pricing
       (products ++ products') bundle_discount)
  == BundleInfo.bundle_price
       (AdvancedPricingAlgorithms.optimal_bundle_pricing products bundle_discount)
     + BundleInfo.bundle_price
         (AdvancedPricingAlgorithms.optimal_bundle_pricing products' bundle_discount) ∧
  BundleInfo.savings
    (AdvancedPricingAlgorithms.optimal_bundle_pricing
       (products ++ products') bundle_discount)
  == BundleInfo.savings
       (AdvancedPricingAlgorithms.optimal_bundle_pricing products bundle_discount)
     + BundleInfo.savings
         (AdvancedPricingAlgorithms.optimal_bundle_pricing products' bundle_discount) ∧
  BundleInfo.bundle_price
    (AdvancedPricingAlgorithms.optimal_bundle_pricing [] bundle_discount) == 0 ∧
  BundleInfo.savings
    (AdvancedPricingAlgorithms.optimal_bundle_pricing [] bundle_discount) == 0.
Proof.
  unfold AdvancedPricingAlgorithms.optimal_bundle_pricing.
  cbn [BundleInfo.bundle_price BundleInfo.savings].
  rewrite map_app, py_sum_app.
  change (py_sum (map Product.price [])) with 0.
  repeat split; ring.
Qed.

(** ** Truncation and loyalty points *)












(** ** The sample rule set and the engine built from it *)

(** X18 - [create_discount_rules] reads the clock twice and returns four
    rules whose parameters are all in range and none of which can divide by
    zero; an engine loaded with them therefore prices every cart for every
    customer without failure.  The flash sale is active exactly from the
    first reading until seven days after the second one; the other three
    rules are always active. *)
Theorem create_discount_rules_usable (clock : Clock) (n : nat) :
  ∃ rules,
    create_discount_rules clock n = Ok (rules, S (S n)) ∧
    length rules = 4%nat ∧
    Forall well_formed_rule rules ∧
    Forall safe_rule rules ∧
    (∀ cart customer apply_customer_discount m,
       ∃ b, PricingEngine.calculate_final_price (engine rules) cart customer
              apply_customer_discount clock m
            = Ok (b, (m + length cart * 4)%nat)) ∧
    (∀ flash m, rules !! 0%nat = Some flash →
       DiscountRule.is_active flash clock m = Ok (true, S m) ↔
       (clock n ≤ clock m ∧ clock m ≤ clock (S n) + timedelta_days 7)%Z) ∧
    (∀ j rule m, (0 < j)%nat → rules !! j = Some rule →
       DiscountRule.is_active rule clock m = Ok (true, S m)).
Proof.
  eexists. split; [reflexivity|]. split; [reflexivity|].
  match goal with |- Forall well_formed_rule ?l ∧ _ =>
    assert (Forall well_formed_rule l) as Hwf end.
  { repeat constructor; simpl; try lra; try lia. }
  split; [exact Hwf|].
  match goal with |- Forall safe_rule ?l ∧ _ =>
    assert (Forall safe_rule l) as Hsafe end.
  { eapply Forall_impl; [exact Hwf|]. apply well_formed_safe. }
  split; [exact Hsafe|]. split; [|split].
  - intros cart customer flag m.
    match goal with |- context [engine ?l] =>
      destruct (calculate_final_price_total (engine l) cart customer flag clock m)
        as (b & Hb & _) end.
    { by rewrite discount_rules_engine. }
    rewrite discount_rules_engine in Hb. simpl in Hb. eauto.
  - intros flash m [= <-]. rewrite is_active_run. unfold active_at. simpl.
    split.
    + intros [= H]. apply andb_true_iff in H as [H1 H2].
      rewrite negb_true_iff in H1, H2. apply Z.ltb_ge in H1, H2. lia.
    + intros [H1 H2].
      assert ((clock m <? clock n)%Z = false) as -> by (apply Z.ltb_ge; lia).
      assert ((clock (S n) + timedelta_days 7 <? clock m)%Z = false) as ->
        by (apply Z.ltb_ge; lia).
      done.
  - intros [|[|[|[|j]]]] rule m Hj Hrule; simpl in Hrule; simplify_eq;
      try lia; by rewrite is_active_run.
Qed.

(** X19 - After [__init__] and any sequence of [add_discount_rule] calls,
    the engine holds exactly the added rules, in the order of the calls and
    with their repetitions, and the tax rate and the shipping table are
    still those of [__init__]; one more call appends one more rule. *)
Theorem engine_keeps_rules_in_order (rules : list DiscountRule.t) :
  PricingEngine.discount_rules (engine rules) = rules ∧
  PricingEngine.tax_rate (engine rules)
  = PricingEngine.tax_rate PricingEngine.__init__ ∧
  PricingEngine.shipping_rates (engine rules)
  = PricingEngine.shipping_rates PricingEngine.__init__ ∧
  ∀ rule,
    PricingEngine.discount_rules
      (PricingEngine.add_discount_rule (engine rules) rule)
    = rules ++ [rule] ∧
    length (PricingEngine.discount_rules
              (PricingEngine.add_discount_rule (engine rules) rule))
    = S (length rules).
Proof.
  rewrite engine_eq. simpl. repeat split; [done..|].
  rewrite length_app. simpl. lia.
Qed.

(** ** Keys of the itemized report *)

Lemma digits_no_underscore (d : Decimal.uint) (s t : string) :
  NilEmpty.string_of_uint d ≠ s +:+ "_" +:+ t.
Proof.
  revert s. induction d as [|d IH|d IH|d IH|d IH|d IH|d IH|d IH|d IH|d IH|d IH];
    intros [|c s] H; simpl in H; try discriminate;
    injection H as _ H; by eapply IH.
Qed.

Lemma py_str_no_underscore (n : Z) (s t : string) :
  py_str n ≠ s +:+ "_" +:+ t.
Proof.
  unfold py_str. destruct n as [|p|p]; simpl.
  - destruct s as [|c [|c' s]]; discriminate.
  - pose proof (DecimalPos.Unsigned.to_uint_nonnil p) as Hnil.
    unfold NilZero.string_of_uint. destruct (Pos.to_uint p) eqn:E; [done|..];
      rewrite <- E; apply digits_no_underscore.
  - pose proof (DecimalPos.Unsigned.to_uint_nonnil p) as Hnil.
    destruct s as [|c s]; simpl; [discriminate|]. intros H. injection H as _ H.
    revert H. unfold NilZero.string_of_uint.
    destruct (Pos.to_uint p) eqn:E; [done|..];
      rewrite <- E; apply digits_no_underscore.
Qed.

Lemma py_str_inj (n m : Z) : py_str n = py_str m → n = m.
Proof.
  unfold py_str. intros H. apply DecimalZ.to_int_inj.
  assert (∀ z, Z.to_int z ≠ Decimal.Pos Decimal.Nil
               ∧ Z.to_int z ≠ Decimal.Neg Decimal.Nil) as Hnn.
  { intros [|p|p]; simpl; split; try discriminate;
      intros [= Hp]; by apply DecimalPos.Unsigned.to_uint_nonnil in Hp. }
  destruct (Hnn n) as [Hn1 Hn2], (Hnn m) as [Hm1 Hm2].
  pose proof (NilZero.isi _ Hn1 Hn2) as En.
  pose proof (NilZero.isi _ Hm1 Hm2) as Em.
  rewrite H in En. congruence.
Qed.

Lemma split_at_underscore (s1 s2 t1 t2 : string) :
  (∀ s t, s1 ≠ s +:+ "_" +:+ t) →
  (∀ s t, s2 ≠ s +:+ "_" +:+ t) →
  s1 +:+ "_" +:+ t1 = s2 +:+ "_" +:+ t2 →
  s1 = s2 ∧ t1 = t2.
Proof.
  revert s2. induction s1 as [|c s1 IH]; intros [|c' s2] H1 H2 Heq; simpl in Heq.
  - injection Heq as Heq. by subst.
  - injection Heq as <- Heq. exfalso. by apply (H2 ""%string s2).
  - injection Heq as -> Heq. exfalso. by apply (H1 ""%string s1).
  - injection Heq as <- Heq.
    destruct (IH s2) as [-> ->]; [| |done|done].
    + intros s t ->. by apply (H1 (String c s) t).
    + intros s t ->. by apply (H2 (String c s) t).
Qed.

(** X20 - Two cart items get the same key of the itemized report exactly
    when they have the same product id and the same quantity. *)
Theorem item_key_injective (item item' : CartItem.t) :
  PricingEngine.item_key item = PricingEngine.item_key item' ↔
  Product.id (CartItem.product item) = Product.id (CartItem.product item') ∧
  CartItem.quantity item = CartItem.quantity item'.
Proof.
  unfold PricingEngine.item_key. split.
  - intros H. apply split_at_underscore in H as [H1 H2];
      [|apply py_str_no_underscore..].
    split; by apply py_str_inj.
  - by intros [-> ->].
Qed.

Lemma fold_record_lookup_untouched
    (picks : list (CartItem.t * (Q * option DiscountRule.t)))
    (results : DiscountInfo.t) (k : string) :
  (∀ item bd w, (item, (bd, Some w)) ∈ picks → PricingEngine.item_key item ≠ k) →
  DiscountInfo.item_discounts (fold_left record_pick picks results) !! k
  = DiscountInfo.item_discounts results !! k.
Proof.
  revert results. induction picks as [|[item [bd [w|]]] picks IH];
    intros results Hall; simpl; [done| |].
  - rewrite IH by (intros ????; eapply Hall; by right).
    unfold record_pick. simpl. apply lookup_insert_ne. eapply Hall. left.
  - apply IH. intros ????. eapply Hall. by right.
Qed.

(** X21 - When several items of the cart share a key, the itemized report
    keeps the entry of the last of them that has a winning rule: an item
    with a winner is reported with its own discount and rule as soon as no
    later item with the same key has a winner. *)
Theorem report_keeps_last_winner
    (rules : list DiscountRule.t) (cart : list CartItem.t)
    (customer : Customer.t) (clock : Clock) (n n' : nat) (res : DiscountInfo.t) :
  PricingEngine.calculate_best_discount_combination
    (engine rules) cart customer clock n = Ok (res, n') →
  ∃ picks : list (Q * option DiscountRule.t),
    length picks = length cart ∧
    (∀ i item, cart !! i = Some item →
       ∃ bd br, picks !! i = Some (bd, br) ∧
         wins (engine rules) customer clock rules item
           (n + i * length rules)%nat bd br) ∧
    ∀ i item bd w,
      cart !! i = Some item → picks !! i = Some (bd, Some w) →
      (∀ i' item' bd' w',
         (i < i')%nat → cart !! i' = Some item' →
         picks !! i' = Some (bd', Some w') →
         PricingEngine.item_key item' ≠ PricingEngine.item_key item) →
      DiscountInfo.item_discounts res !! PricingEngine.item_key item
      = Some (entry_of item bd w).
Proof.
  intros (picks & Hlen & Hpicks & _ & ->)%combination_picks.
  rewrite discount_rules_engine in Hpicks.
  exists picks. split; [done|]. split; [done|].
  intros i item bd w Hi Hp Hlater.
  assert (zip cart picks !! i = Some (item, (bd, Some w))) as Hz.
  { apply lookup_zip_with_Some. eauto. }
  rewrite <- (take_drop_middle _ _ _ Hz), fold_left_app. simpl.
  rewrite fold_record_lookup_untouched.
  - unfold record_pick. simpl. apply lookup_insert_eq.
  - intros item' bd' w' (j & Hj)%list_elem_of_lookup.
    rewrite lookup_drop in Hj.
    apply lookup_zip_with_Some in Hj as (x & y & Heq & Hx & Hy). simplify_eq.
    eapply (Hlater (S i + j)%nat); [lia|done|done].
Qed.

Lemma report_keeps_last_winner_witness :
  ∃ res n',
    PricingEngine.calculate_best_discount_combination (engine [flash_sale])
      [CartItem.mk (sample_product 1000000) 1;
       CartItem.mk (sample_product 100000) 1]
      (sample_customer BRONZE) still_clock 0%nat = Ok (res, n') ∧
    ∃ picks : list (Q * option DiscountRule.t), length picks = 2%nat.
Proof.
  destruct (PricingEngine.calculate_best_discount_combination (engine [flash_sale])
              [CartItem.mk (sample_product 1000000) 1;
               CartItem.mk (sample_product 100000) 1]
              (sample_customer BRONZE) still_clock 0%nat)
    as [[res n']|e] eqn:Hrun; [|vm_compute in Hrun; discriminate].
  exists res, n'. split; [reflexivity|].
  destruct (report_keeps_last_winner _ _ _ _ _ _ _ Hrun) as (picks & Hlen & _).
  exists picks. exact Hlen.
Defined.

(** Two items with the same product id and quantity: the report has the
    entry of the second one only (20,000 of discount), while
    [total_discount] counts both (170,000). *)
Example colliding_keys_share_one_entry :
  ∃ res n' e,
    PricingEngine.calculate_best_discount_combination (engine [flash_sale])
      [CartItem.mk (sample_product 1000000) 1;
       CartItem.mk (sample_product 100000) 1]
      (sample_customer BRONZE) still_clock 0%nat = Ok (res, n') ∧
    DiscountInfo.item_discounts res !! "1_1"%string = Some e ∧
    size (DiscountInfo.item_discounts res) = 1%nat ∧
    ItemDiscount.discount_amount e == 20000 ∧
    DiscountInfo.total_discount res == 170000.
Proof.
  eexists _, _, _. split; [vm_compute; reflexivity|].
  split; [vm_compute; reflexivity|]. split; [by vm_compute|].
  split; reflexivity.
Qed.

(** ** The tier table *)

(** X22 - The tier discount percentage is 0 for Bronze, at most 20, and
    never decreases along Bronze < Silver < Gold < Platinum < VIP. *)
Theorem get_tier_discount_table (customer : Customer.t) :
  0 <= Customer.get_tier_discount customer ∧
  Customer.get_tier_discount customer <= 20 ∧
  (Customer.tier customer = BRONZE → Customer.get_tier_discount customer = 0) ∧
  ∀ lower higher, (tier_rank lower ≤ tier_rank higher)%nat →
    Customer.get_tier_discount (with_tier customer lower)
    <= Customer.get_tier_discount (with_tier customer higher).
Proof.
  split; [apply get_tier_discount_nonneg|]. split; [|split].
  - unfold Customer.get_tier_discount. destruct (Customer.tier _); lra.
  - unfold Customer.get_tier_discount. by intros ->.
  - apply get_tier_discount_mono.
Qed.

(** ** Loyalty tier and total, with tier-restricted rules *)

Lemma is_rule_applicable_higher_tier self item rule customer lower higher :
  upward_closed rule →
  (tier_rank lower ≤ tier_rank higher)%nat →
  PricingEngine._is_rule_applicable self item rule (with_tier customer lower) = true →
  PricingEngine._is_rule_applicable self item rule (with_tier customer higher) = true.
Proof.
  intros Hup Hrank. unfold PricingEngine._is_rule_applicable.
  destruct (_ <? _)%Z; [done|]. destruct (Qltb _ _); [done|].
  destruct (truthy (DiscountRule.applicable_categories rule) && _); [done|].
  destruct (truthy (DiscountRule.applicable_products rule) && _); [done|].
  simpl.
  destruct (truthy (DiscountRule.customer_tiers rule)
            && negb (bool_decide (lower ∈ DiscountRule.customer_tiers rule)))
    eqn:Hlow; [done|]. intros _.
  apply truthy_filter in Hlow.
  assert (truthy (DiscountRule.customer_tiers rule)
          && negb (bool_decide (higher ∈ DiscountRule.customer_tiers rule)) = false)
    as ->; [|done].
  apply truthy_filter. destruct Hlow as [?|Hin]; [by left|right].
  by eapply Hup.
Qed.

(** What a rule yields for the lower tier it yields for the higher tier
    too, unless it yields nothing for the lower tier. *)
Lemma calculate_item_discount_higher_tier
    self item rule customer lower higher clock n d d' n1 n2 :
  upward_closed rule →
  (tier_rank lower ≤ tier_rank higher)%nat →
  PricingEngine.calculate_item_discount self item rule (with_tier customer lower)
    clock n = Ok (d, n1) →
  PricingEngine.calculate_item_discount self item rule (with_tier customer higher)
    clock n = Ok (d', n2) →
  d = d' ∨ d = 0.
Proof.
  intros Hup Hrank Hlow Hhigh.
  destruct (active_at (clock n) rule
            && PricingEngine._is_rule_applicable self item rule
                 (with_tier customer lower)) eqn:E.
  - rewrite (calculate_item_discount_apply _ _ _ _ _ _ E) in Hlow.
    apply andb_true_iff in E as [Ha Hp].
    apply (is_rule_applicable_higher_tier _ _ _ _ _ _ Hup Hrank) in Hp.
    rewrite calculate_item_discount_apply in Hhigh by (by rewrite Ha, Hp).
    destruct (divides_by_zero item rule); [done|]. left. congruence.
  - rewrite (calculate_item_discount_skip _ _ _ _ _ _ E) in Hlow.
    right. congruence.
Qed.

Lemma wins_higher_tier self customer lower higher clock rules item n bd br bd' br' :
  Forall upward_closed rules →
  (tier_rank lower ≤ tier_rank higher)%nat →
  wins self (with_tier customer lower) clock rules item n bd br →
  wins self (with_tier customer higher) clock rules item n bd' br' →
  bd <= bd'.
Proof.
  intros Hup Hrank [_ Hw] Hw'. destruct br as [w|].
  - destruct Hw as (j & Hj & Hrun & Hpos & _). destruct Hw' as [Hall _].
    destruct (Hall j w Hj) as (d & Hd & Hle).
    rewrite Forall_lookup in Hup.
    destruct (calculate_item_discount_higher_tier _ _ _ _ _ _ _ _ _ _ _ _
                (Hup j w Hj) Hrank Hrun Hd) as [->| ->]; [done|lra].
  - subst bd. apply wins_consistent in Hw'.
    by apply consistent_nonneg in Hw'.
Qed.

Lemma combination_higher_tier rules cart customer lower higher clock n
    info info' n1 n2 :
  Forall upward_closed rules →
  (tier_rank lower ≤ tier_rank higher)%nat →
  PricingEngine.calculate_best_discount_combination (engine rules) cart
    (with_tier customer lower) clock n = Ok (info, n1) →
  PricingEngine.calculate_best_discount_combination (engine rules) cart
    (with_tier customer higher) clock n = Ok (info', n2) →
  n2 = n1 ∧
  DiscountInfo.total_discount info <= DiscountInfo.total_discount info'.
Proof.
  intros Hup Hrank Hinfo Hinfo'. split.
  - unfold PricingEngine.calculate_best_discount_combination in *.
    apply item_loop_spec in Hinfo as [-> _].
    by apply item_loop_spec in Hinfo' as [-> _].
  - apply combination_picks in Hinfo as (picks & Hlen & Hpicks & Hc & ->).
    apply combination_picks in Hinfo' as (picks' & Hlen' & Hpicks' & Hc' & ->).
    rewrite !fold_record_total by by apply consistent_zip.
    simpl. rewrite !snd_zip by lia.
    assert (Qsum picks.*1 <= Qsum picks'.*1); [|lra].
    apply Qsum_le, Forall2_fmap, Forall2_same_length_lookup.
    split; [lia|]. intros i [bd br] [bd' br'] Hp Hp'.
    destruct (lookup_lt_is_Some_2 cart i) as [item Hi].
    { rewrite <- Hlen. by eapply lookup_lt_Some. }
    destruct (Hpicks i item Hi) as (? & ? & ? & Hw).
    destruct (Hpicks' i item Hi) as (? & ? & ? & Hw'). simplify_eq.
    rewrite !discount_rules_engine in *. simpl.
    by eapply wins_higher_tier.
Qed.

(** C5 - For every cart, every rule list in which the tier allow-list of
    each rule is upward closed (a rule that admits a tier admits every
    higher tier; an empty list admits all), and two customers that differ
    only by their tier, the higher tier (in the order Bronze < Silver < Gold
    < Platinum < VIP) never gets a smaller product discount and never pays a
    greater total, provided the product discount of the lower tier does not
    exceed the subtotal.  The call for the higher tier returns whenever no
    rule can divide by zero, and also whenever no rule is restricted to
    tiers. *)
Theorem higher_tier_never_pays_more
    (rules : list DiscountRule.t) (cart : list CartItem.t)
    (customer : Customer.t) (lower higher : CustomerTier)
    (apply_customer_discount : bool) (clock : Clock) (n n' : nat)
    (b_lower : PriceBreakdown.t) :
  Forall upward_closed rules →
  (tier_rank lower ≤ tier_rank higher)%nat →
  PricingEngine.calculate_final_price (engine rules) cart
    (with_tier customer lower) apply_customer_discount clock n
  = Ok (b_lower, n') →
  PriceBreakdown.product_discount b_lower <= PriceBreakdown.subtotal b_lower →
  (∀ b_higher n2,
     PricingEngine.calculate_final_price (engine rules) cart
       (with_tier customer higher) apply_customer_discount clock n
     = Ok (b_higher, n2) →
     n2 = n' ∧
     PriceBreakdown.product_discount b_lower
     <= PriceBreakdown.product_discount b_higher ∧
     PriceBreakdown.total b_higher <= PriceBreakdown.total b_lower) ∧
  (Forall safe_rule rules →
   ∃ b_higher,
     PricingEngine.calculate_final_price (engine rules) cart
       (with_tier customer higher) apply_customer_discount clock n
     = Ok (b_higher, n')) ∧
  (Forall (λ rule, DiscountRule.customer_tiers rule = []) rules →
   ∃ b_higher,
     PricingEngine.calculate_final_price (engine rules) cart
       (with_tier customer higher) apply_customer_discount clock n
     = Ok (b_higher, n')).
Proof.
  intros Hup Hrank Hrun Hpd.
  unfold PricingEngine.calculate_final_price in *. unfold mbind, M_bind in *.
  destruct (PricingEngine.calculate_best_discount_combination (engine rules) cart
              (with_tier customer lower) clock n)
    as [[info m1]|e] eqn:Hinfo; [|done].
  unfold mret, M_ret in *. injection Hrun as <- <-.
  cbn [PriceBreakdown.product_discount PriceBreakdown.subtotal
       PriceBreakdown.total] in *.
  split; [|split].
  - intros b_higher n2.
    destruct (PricingEngine.calculate_best_discount_combination (engine rules) cart
                (with_tier customer higher) clock n)
      as [[info' m2]|e] eqn:Hinfo'; [|done].
    intros [= <- <-].
    destruct (combination_higher_tier _ _ _ _ _ _ _ _ _ _ _ Hup Hrank Hinfo Hinfo')
      as [-> Hle].
    split; [done|]. split; [done|].
    cbn [PriceBreakdown.total]. rewrite tax_rate_engine.
    pose proof (get_tier_discount_mono customer lower higher Hrank) as Hmono.
    assert (Customer.get_tier_discount (with_tier customer higher) <= 20) as Hp20.
    { unfold Customer.get_tier_discount. simpl. destruct higher; lra. }
    set (s := py_sum _) in *.
    set (pd := DiscountInfo.total_discount info) in *.
    set (pd' := DiscountInfo.total_discount info') in *.
    set (ship := PricingEngine.calculate_shipping_fee _ _ _).
    set (p1 := Customer.get_tier_discount (with_tier customer lower)) in *.
    set (p2 := Customer.get_tier_discount (with_tier customer higher)) in *.
    destruct apply_customer_discount; [|lra].
    assert (∀ x p, s - x - (s - x) * (p / 100)
                   + (s - x - (s - x) * (p / 100)) * (1 # 10) + ship
                   == (s - x) * (100 - p) * (11 # 1000) + ship) as Heq
      by (intros x p; field).
    rewrite !Heq.
    assert ((s - pd') * (100 - p2) <= (s - pd) * (100 - p1)); [|lra].
    destruct (Qlt_le_dec (s - pd') 0); nra.
  - intros Hsafe.
    assert (m1 = (n + length cart * length rules)%nat) as ->.
    { unfold PricingEngine.calculate_best_discount_combination in Hinfo.
      apply item_loop_spec in Hinfo as [-> _]. by rewrite discount_rules_engine. }
    destruct (calculate_final_price_total (engine rules) cart
                (with_tier customer higher) apply_customer_discount clock n)
      as (b & Hb & _).
    { by rewrite discount_rules_engine. }
    rewrite discount_rules_engine in Hb.
    unfold PricingEngine.calculate_final_price in Hb.
    unfold mbind, M_bind, mret, M_ret in Hb. eauto.
  - intros Htiers.
    unfold PricingEngine.calculate_best_discount_combination in *.
    rewrite (item_loop_any_tier (engine rules) (with_tier customer higher)
               (with_tier customer lower))
      by by rewrite discount_rules_engine.
    rewrite Hinfo. eauto.
Qed.

Lemma create_discount_rules_upward_closed (clock : Clock) (n : nat) :
  ∃ rules, create_discount_rules clock n = Ok (rules, S (S n)) ∧
           Forall upward_closed rules ∧
           ¬ Forall (λ rule, DiscountRule.customer_tiers rule = []) rules.
Proof.
  eexists. split; [reflexivity|]. split.
  - apply Forall_lookup. intros [|[|[|[|i]]]] rule Hi; simpl in Hi; simplify_eq;
      intros lower higher Hrank Hin; simpl in Hin;
      try (by apply elem_of_nil in Hin).
    destruct lower, higher; simpl in Hrank; try lia;
      first [ by repeat constructor
            | exfalso;
              repeat (apply elem_of_cons in Hin as [Hin|Hin]; [discriminate|]);
              by apply elem_of_nil in Hin ].
  - intros H. rewrite Forall_lookup in H. by specialize (H 3%nat _ eq_refl).
Qed.

Lemma higher_tier_never_pays_more_witness :
  ∃ rules b_lower b_higher n',
    create_discount_rules still_clock 0%nat = Ok (rules, 2%nat) ∧
    Forall upward_closed rules ∧
    (tier_rank GOLD ≤ tier_rank VIP)%nat ∧
    PricingEngine.calculate_final_price (engine rules)
      [CartItem.mk (sample_product 6000000) 1]
      (with_tier (sample_customer BRONZE) GOLD) true still_clock 2%nat
    = Ok (b_lower, n') ∧
    PriceBreakdown.product_discount b_lower <= PriceBreakdown.subtotal b_lower ∧
    PricingEngine.calculate_final_price (engine rules)
      [CartItem.mk (sample_product 6000000) 1]
      (with_tier (sample_customer BRONZE) VIP) true still_clock 2%nat
    = Ok (b_higher, n') ∧
    PriceBreakdown.total b_higher <= PriceBreakdown.total b_lower.
Proof.
  destruct (create_discount_rules_upward_closed still_clock 0%nat)
    as (rules & Hrules & Hup & _).
  assert (tier_rank GOLD ≤ tier_rank VIP)%nat as Hrank by (simpl; lia).
  destruct (PricingEngine.calculate_final_price (engine rules)
              [CartItem.mk (sample_product 6000000) 1]
              (with_tier (sample_customer BRONZE) GOLD) true still_clock 2%nat)
    as [[b_lower n']|e] eqn:Hlow;
    [|injection Hrules as <-; vm_compute in Hlow; discriminate].
  assert (PriceBreakdown.product_discount b_lower
          <= PriceBreakdown.subtotal b_lower) as Hpd.
  { pose proof Hlow as Hc. injection Hrules as <-.
    vm_compute in Hc. injection Hc as <- _. by vm_compute. }
  destruct (PricingEngine.calculate_final_price (engine rules)
              [CartItem.mk (sample_product 6000000) 1]
              (with_tier (sample_customer BRONZE) VIP) true still_clock 2%nat)
    as [[b_higher n2]|e] eqn:Hhigh;
    [|injection Hrules as <-; vm_compute in Hhigh; discriminate].
  destruct (proj1 (higher_tier_never_pays_more rules
                     [CartItem.mk (sample_product 6000000) 1]
                     (sample_customer BRONZE) GOLD VIP true still_clock
                     2%nat n' b_lower Hup Hrank Hlow Hpd) b_higher n2 Hhigh)
    as (-> & _ & Hle).
  exists rules, b_lower, b_higher, n'.
  split; [exact Hrules|]. split; [exact Hup|]. split; [exact Hrank|].
  split; [exact Hlow|]. split; [exact Hpd|]. split; [exact Hhigh|exact Hle].
Defined.

(** ** Loyalty points on doubles *)










(** The same formula read with the products of doubles taken from left to
    right gives 27 as well: the code multiplies the two multipliers first. *)
Example left_to_right_product_differs :
  ∃ base,
    Binary64.of_int 15 = inr base ∧
    Binary64.to_int
      (Binary64.mul (Binary64.mul base (Binary64.tier_multipliers SILVER))
         Binary64.lit_1_5) = inr 27%Z ∧
    Binary64.to_int
      (Binary64.mul base
         (Binary64.mul (Binary64.tier_multipliers SILVER) Binary64.lit_1_5))
    = inr 26%Z.
Proof. eexists. split; [reflexivity|]. split; reflexivity. Qed.

(** For a negative amount [int] does not floor: -1500 gives -1 points, the
    floor of -1.5 being -2. *)
Example negative_amount_truncated :
  Binary64.loyalty_point_calculation (Binary64.nearest (-1500) 0) BRONZE
    Binary64.lit_1_0 = inr (-1)%Z ∧
  Qfloor (Binary64.value (Binary64.div (Binary64.nearest (-1500) 0)
                            Binary64.thousand)) = (-2)%Z.
Proof. split; reflexivity. Qed.
